(** * Wizarr: role guards, media-client base class, identity linking and
      delegated (Jellyfin) authentication

    A shallow embedding of

    - [app/decorators.py]                  (module [Decorators]),
    - [app/services/jellyfin_auth.py]      (module [JellyfinAuth]),
    - [app/services/media/client_base.py]  (module [ClientBase]),

    together with the small part of Python (truthiness, [dict.get],
    exceptions, attributes that may be unbound) and of the SQLAlchemy
    session (query, add, commit) that this code relies on. *)

From Stdlib Require Import ZArith List String Ascii Bool Lia.
From stdpp Require Import base gmap strings pretty.
Import ListNotations.

Local Open Scope Z_scope.
Local Open Scope string_scope.
Local Open Scope list_scope.

Set Implicit Arguments.
Set Warnings "-register-all".

(* ===================================================================== *)
(** * Python values, exceptions and attributes *)
(* ===================================================================== *)

Module Py.

(** Exceptions deriving from [Exception]; each carries its [str(e)]. *)
Inductive exn : Type :=
| AttributeError (msg : string)
| TypeError (msg : string)
| ValueError (msg : string)
| RequestException (msg : string)   (* requests.exceptions.RequestException *)
| HTTPException (code : Z)          (* werkzeug: raised by flask.abort(code) *)
| RuntimeError (msg : string).

Definition exn_str (e : exn) : string :=
  match e with
  | AttributeError m | TypeError m | ValueError m
  | RequestException m | RuntimeError m => m
  | HTTPException c => pretty c
  end.

(** [isinstance(e, requests.exceptions.RequestException)] *)
Definition is_request_exception (e : exn) : bool :=
  match e with RequestException _ => true | _ => false end.

(** The outcome of evaluating a Python expression. *)
Inductive result (A : Type) : Type :=
| Ok (a : A)
| Raise (e : exn).
Arguments Ok {A} a.
Arguments Raise {A} e.

(** Values as they come out of [response.json()] and as the code stores them
    in dictionaries.  [JDict] lists the items of a dict (keys are unique). *)
Inductive json : Type :=
| JNull
| JBool (b : bool)
| JInt (z : Z)
| JStr (s : string)
| JList (l : list json)
| JDict (items : list (string * json)).

Fixpoint items_get (items : list (string * json)) (k : string) : option json :=
  match items with
  | [] => None
  | (k', v) :: rest => if String.eqb k' k then Some v else items_get rest k
  end.

(** [d.get(k, default)]: only a dict has a [get] attribute. *)
Definition dict_get (d : json) (k : string) (default : json) : result json :=
  match d with
  | JDict items =>
      Ok (match items_get items k with Some v => v | None => default end)
  | _ => Raise (AttributeError "object has no attribute 'get'")
  end.

(** Truth value of an optional string ([None] and [''] are false). *)
Definition truthy_str (s : option string) : bool :=
  match s with
  | Some s => negb (String.eqb s "")
  | None => false
  end.

(** [if s:] on an optional string: the string, when it is neither [None]
    nor ['']. *)
Definition nonempty (s : option string) : option string :=
  match s with
  | Some s => if String.eqb s "" then None else Some s
  | None => None
  end.

(** Truth value of an optional integer ([None] and [0] are false). *)
Definition truthy_int (n : option Z) : bool :=
  match n with
  | Some z => negb (Z.eqb z 0)
  | None => false
  end.

(** Truth value of an optional boolean ([None] and [False] are false). *)
Definition truthy_bool (b : option bool) : bool :=
  match b with
  | Some b => b
  | None => false
  end.

(** [s.endswith(c)] for a one-character suffix. *)
Fixpoint endswith (s : string) (c : ascii) : bool :=
  match s with
  | EmptyString => false
  | String a EmptyString => Ascii.eqb a c
  | String _ rest => endswith rest c
  end.

(** An instance attribute: unbound until the first assignment; reading an
    unbound attribute raises [AttributeError]. *)
Inductive attr (A : Type) : Type :=
| Unset
| Bound (a : A).
Arguments Unset {A}.
Arguments Bound {A} a.

Definition getattr {A} (name : string) (x : attr A) : result A :=
  match x with
  | Bound a => Ok a
  | Unset => Raise (AttributeError ("object has no attribute '" +:+ name +:+ "'"))
  end.

Definition hasattr {A} (x : attr A) : bool :=
  match x with Bound _ => true | Unset => false end.

End Py.

Import Py.

(* ===================================================================== *)
(** * The tables of [app.models] that the code reads and writes *)
(* ===================================================================== *)

(** Only the columns the embedded code touches are kept.  A nullable column
    is an [option]. *)

Module MediaServer.
Record t : Type := mk {
  id : Z;
  name : string;
  server_type : string;
  url : string;
  api_key : option string;
  verified : bool
}.
End MediaServer.

Module Invitation.
Record t : Type := mk {
  code : string;
  unlimited : option bool
}.
End Invitation.

Module User.
Record t : Type := mk {
  username : option string;
  email : option string;
  code : option string;
  identity_id : option Z;
  token : option string;
  server_id : option Z
}.
End User.

Module AdminAccount.
Record t : Type := mk {
  username : string;
  role : string;
  password_hash : option string;
  jellyfin_server : option string;
  jellyfin_user_id : json
}.
End AdminAccount.

(** The rows of every table; [settings] is the key/value [Settings] table,
    whose key is unique. *)
Record Tables : Type := mkTables {
  invitations : list Invitation.t;
  users : list User.t;
  accounts : list AdminAccount.t;
  servers : list MediaServer.t;
  settings : gmap string string
}.

(** [db.session]: [live] is what queries of this session see (committed rows
    and the rows added since, which autoflush makes visible); [stored] is
    what has been committed. *)
Record Session : Type := mkSession {
  live : Tables;
  stored : Tables
}.

Inductive level : Type := DEBUG | INFO | WARNING | ERROR.

(** The world a request handler runs in: the database session, the records
    handed to [logging], and the methods dispatched on a media client. *)
Record World : Type := mkWorld {
  db : Session;
  log : list (level * string);
  calls : list string
}.

(* ===================================================================== *)
(** * Effects: state and exceptions *)
(* ===================================================================== *)

(** A computation changes the world and returns or raises; what it did to
    the world before raising stays done. *)
Definition M (A : Type) : Type := World -> result A * World.

#[global] Instance M_ret : MRet M := fun A a w => (Ok a, w).

#[global] Instance M_bind : MBind M := fun A B f m w =>
  match m w with
  | (Ok a, w') => f a w'
  | (Raise e, w') => (Raise e, w')
  end.

Definition raise {A} (e : exn) : M A := fun w => (Raise e, w).

Definition lift {A} (r : result A) : M A := fun w => (r, w).

(** [try: body  except Exception as e: handler e] *)
Definition try_except {A} (body : M A) (handler : exn -> M A) : M A :=
  fun w =>
    match body w with
    | (Ok a, w') => (Ok a, w')
    | (Raise e, w') => handler e w'
    end.

Definition get_db : M Session := fun w => (Ok (db w), w).

(** The world once a record has been handed to [logging]. *)
Definition logged (l : level) (msg : string) (w : World) : World :=
  mkWorld (db w) (log w ++ [(l, msg)]) (calls w).

Definition logging (l : level) (msg : string) : M unit :=
  fun w => (Ok tt, logged l msg w).

(** The world once a method call has been recorded. *)
Definition called (method : string) (w : World) : World :=
  mkWorld (db w) (log w) (calls w ++ [method]).

(** A method called through [self]: the call is recorded, then the body of
    the method runs. *)
Definition invoke {A} (method : string) (body : M A) : M A :=
  fun w => body (called method w).

(** [db.session.commit()], when the storage engine accepts the pending
    rows: they become the stored ones.  The tables carry no constraints, so
    a commit that the engine refuses (a second [AdminAccount] with a
    username already taken, a locked database) is outside this definition;
    where the code handles such a refusal, [Metadata.commit_or_raise]
    models it. *)
Definition commit : M unit :=
  fun w => (Ok tt, mkWorld (mkSession (live (db w)) (live (db w))) (log w) (calls w)).

(** [db.session.add(row)] for the tables the code adds to. *)
Definition add_user (u : User.t) : M unit :=
  fun w =>
    let s := db w in
    let t := live s in
    (Ok tt,
     mkWorld
       (mkSession
          (mkTables (invitations t) (users t ++ [u]) (accounts t) (servers t) (settings t))
          (stored s))
       (log w) (calls w)).

Definition add_account (a : AdminAccount.t) : M unit :=
  fun w =>
    let s := db w in
    let t := live s in
    (Ok tt,
     mkWorld
       (mkSession
          (mkTables (invitations t) (users t) (accounts t ++ [a]) (servers t) (settings t))
          (stored s))
       (log w) (calls w)).

(* ===================================================================== *)
(** * app/decorators.py *)
(* ===================================================================== *)

Module Decorators.

(** [current_user.id] is the integer primary key of an account row, or the
    string ['admin'] of the legacy single admin. *)
Inductive user_id : Type :=
| IdInt (n : Z)
| IdStr (s : string).

(** [current_user], as far as the guards look at it: they probe attributes
    with [hasattr] before using them. *)
Record Principal : Type := mkPrincipal {
  is_authenticated : bool;
  is_admin : attr bool;                   (* what [current_user.is_admin()] returns *)
  has_permission : attr (string -> bool); (* [current_user.has_permission] *)
  id : attr user_id;
  role : attr string
}.

(** What a guarded view hands back to Flask: the login manager's
    [unauthorized()] response (the redirect to the login page), or whatever
    the wrapped view returned. *)
Inductive response (R : Type) : Type :=
| Unauthorized
| Returned (r : R).
Arguments Unauthorized {R}.
Arguments Returned {R} r.

(** [current_user.id == 'admin'] *)
Definition id_is_admin (i : attr user_id) : bool :=
  match i with
  | Bound (IdStr s) => String.eqb s "admin"
  | _ => false
  end.

(** [hasattr(current_user, 'is_admin') and current_user.is_admin()] *)
Definition is_admin_call (p : Principal) : bool :=
  match is_admin p with
  | Bound b => b
  | Unset => false
  end.

(** [hasattr(current_user, 'has_permission') and
     current_user.has_permission(permission)] *)
Definition has_permission_call (p : Principal) (permission : string) : bool :=
  match has_permission p with
  | Bound check => check permission
  | Unset => false
  end.

Section Guards.

Context {Args R : Type}.

(** The wrapped view [f] and the ambient [current_user]. *)
Variable f : Args -> M R.
Variable current_user : Principal.

Definition call_view (args : Args) : M (response R) :=
  r ← f args; mret (Returned r).

Definition admin_required (args : Args) : M (response R) :=
  if negb (is_authenticated current_user) then mret Unauthorized
  else if is_admin_call current_user then call_view args
  else if hasattr (id current_user) && id_is_admin (id current_user) then call_view args
  else raise (HTTPException 403).

Definition permission_required (permission : string) (args : Args) : M (response R) :=
  if negb (is_authenticated current_user) then mret Unauthorized
  else if has_permission_call current_user permission then call_view args
  else if hasattr (id current_user) && id_is_admin (id current_user) then call_view args
  else raise (HTTPException 403).

Definition guest_allowed (args : Args) : M (response R) :=
  if negb (is_authenticated current_user) then mret Unauthorized
  else if hasattr (role current_user)
          || (hasattr (id current_user) && id_is_admin (id current_user))
       then call_view args
  else raise (HTTPException 403).

End Guards.

(** Modelled from the spec: the permission table of section 3 (the method
    [AdminAccount.has_permission] of [app.models] is not under src/).  An
    unknown permission or role is denied. *)
Definition role_permits (role permission : string) : bool :=
  if String.eqb role "admin" then
    String.eqb permission "manage_users" || String.eqb permission "manage_settings"
    || String.eqb permission "create_invites" || String.eqb permission "view_invites"
  else if String.eqb role "guest" then
    String.eqb permission "create_invites" || String.eqb permission "view_invites"
  else false.

(** Modelled from the spec: a logged-in [AdminAccount] row as
    [current_user] (the class is in [app.models], not under src/).  It is
    authenticated, its [is_admin()] is [role == "admin"] (section 4.1, and
    the assertions of tests/test_admin_accounts.py), its [id] is the integer
    primary key [pk] and it has a [role] attribute. *)
Definition account_principal (pk : Z) (a : AdminAccount.t) : Principal :=
  {| is_authenticated := true;
     is_admin := Bound (String.eqb (AdminAccount.role a) "admin");
     has_permission := Bound (role_permits (AdminAccount.role a));
     id := Bound (IdInt pk);
     role := Bound (AdminAccount.role a) |}.

(** Modelled from the spec: the legacy single admin ([AdminUser] of
    [app.models], not under src/): id ['admin'], implicitly an admin with
    every permission, and no [role] column. *)
Definition legacy_admin : Principal :=
  {| is_authenticated := true;
     is_admin := Bound true;
     has_permission := Bound (fun _ => true);
     id := Bound (IdStr "admin");
     role := Unset |}.

(** flask_login's anonymous user: not authenticated, none of the other
    attributes. *)
Definition anonymous : Principal :=
  {| is_authenticated := false;
     is_admin := Unset;
     has_permission := Unset;
     id := Unset;
     role := Unset |}.

End Decorators.

(* ===================================================================== *)
(** * app/services/jellyfin_auth.py *)
(* ===================================================================== *)

Module JellyfinAuth.

(** A [requests.Response]: [json] is what [response.json()] returns or
    raises. *)
Record Response : Type := mkResponse {
  status_code : Z;
  text : string;
  json : result Py.json
}.

(** [requests.post] returns a response or raises (connection refused,
    timeout, ...). *)
Inductive post_outcome : Type :=
| Responded (r : Response)
| Failed (e : exn).

#[global] Instance result_ret : MRet result := fun A a => Ok a.

#[global] Instance result_bind : MBind result := fun A B f r =>
  match r with
  | Ok a => f a
  | Raise e => Raise e
  end.

(** [user_data.get("User", {}).get(key, default)] *)
Definition user_get (user_data : Py.json) (key : string) (default : Py.json) : result Py.json :=
  user ← dict_get user_data "User" (JDict []);
  dict_get user key default.

(** The dictionary the code builds from the body of a 200 response. *)
Definition build_user_info (user_data : Py.json) : result Py.json :=
  id ← user_get user_data "Id" JNull;
  name ← user_get user_data "Name" JNull;
  has_password ← user_get user_data "HasPassword" (JBool true);
  has_configured_password ← user_get user_data "HasConfiguredPassword" (JBool true);
  server_id ← dict_get user_data "ServerId" JNull;
  access_token ← dict_get user_data "AccessToken" JNull;
  policy ← user_get user_data "Policy" (JDict []);
  mret (JDict [("id", id);
               ("name", name);
               ("has_password", has_password);
               ("has_configured_password", has_configured_password);
               ("server_id", server_id);
               ("access_token", access_token);
               ("policy", policy)]).

(** A string in double quotes, as it stands inside the header value. *)
Definition quoted (s : string) : string :=
  String "034"%char (s +:+ String "034"%char EmptyString).

Definition headers : Py.json :=
  JDict [("Content-Type", JStr "application/json");
         ("Accept", JStr "application/json");
         ("X-Emby-Authorization",
          JStr ("MediaBrowser Client=" +:+ quoted "Wizarr"
                +:+ ", Device=" +:+ quoted "Wizarr"
                +:+ ", DeviceId=" +:+ quoted "wizarr-auth"
                +:+ ", Version=" +:+ quoted "1.0.0"))].

(** [auth_url], from [server_url]: a slash is appended when there is none. *)
Definition auth_url_of (server_url : string) : string :=
  let server_url :=
    if negb (endswith server_url "/"%char) then server_url +:+ "/" else server_url in
  server_url +:+ "Users/AuthenticateByName".

Definition payload_of (username password : string) : Py.json :=
  JDict [("Username", JStr username); ("Pw", JStr password)].

Section Remote.

(** The network: [requests.post(url, json=payload, headers=headers,
    timeout=10, verify=True)]. *)
Variable requests_post : string -> Py.json -> Py.json -> post_outcome.

Definition post (auth_url : string) (payload hdrs : Py.json) : M Response :=
  match requests_post auth_url payload hdrs with
  | Responded r => mret r
  | Failed e => raise e
  end.

Definition _authenticate_against_server (server_url username password : string)
  : M (bool * option Py.json) :=
  let auth_url := auth_url_of server_url in
  let payload := payload_of username password in
  try_except
    (response ← post auth_url payload headers;
     if Z.eqb (status_code response) 200 then
       user_data ← lift (json response);
       user_info ← lift (build_user_info user_data);
       logging INFO ("Successfully authenticated user '" +:+ username
                     +:+ "' against Jellyfin server");;
       mret (true, Some user_info)
     else if Z.eqb (status_code response) 401 then
       logging DEBUG ("Invalid credentials for user '" +:+ username
                      +:+ "' on Jellyfin server");;
       mret (false, None)
     else
       logging WARNING ("Jellyfin authentication failed with status "
                        +:+ pretty (status_code response) +:+ ": " +:+ text response);;
       mret (false, None))
    (fun e =>
       if is_request_exception e then
         logging ERROR ("Network error during Jellyfin authentication: " +:+ exn_str e);;
         raise e
       else
         logging ERROR ("Unexpected error during Jellyfin authentication: " +:+ exn_str e);;
         raise e).

(** The [for server in jellyfin_servers] loop: [Some r] stands for the
    [return r] inside the [try]. *)
Fixpoint for_server (jellyfin_servers : list MediaServer.t) (username password : string)
  : M (bool * option string * option Py.json) :=
  match jellyfin_servers with
  | [] => mret (false, None, None)
  | server :: rest =>
      returned ←
        try_except
          ('(success, user_info) ←
             _authenticate_against_server (MediaServer.url server) username password;
           if (success : bool) then mret (Some (true, Some (MediaServer.name server), user_info))
           else mret None)
          (fun e =>
             logging WARNING ("Failed to authenticate against "
                              +:+ MediaServer.name server +:+ ": " +:+ exn_str e);;
             mret None);
      match returned with
      | Some r => mret r
      | None => for_server rest username password
      end
  end.

(** The credential check against [server] returns success with
    [user_info], or does not return success, whatever the world it runs
    in. *)
Definition check_succeeds (username password : string) (server : MediaServer.t)
  (user_info : Py.json) : Prop :=
  forall w,
    fst (_authenticate_against_server (MediaServer.url server) username password w)
    = Ok (true, Some user_info).

Definition check_fails (username password : string) (server : MediaServer.t) : Prop :=
  forall w user_info,
    fst (_authenticate_against_server (MediaServer.url server) username password w)
    <> Ok (true, user_info).

(** [MediaServer.query.filter_by(server_type="jellyfin").all()] *)
Definition jellyfin_servers_of (s : Session) : list MediaServer.t :=
  List.filter (fun m => String.eqb (MediaServer.server_type m) "jellyfin")
              (servers (live s)).

Definition authenticate_jellyfin_user (username password : string)
  : M (bool * option string * option Py.json) :=
  s ← get_db;
  let jellyfin_servers := jellyfin_servers_of s in
  match jellyfin_servers with
  | [] =>
      logging WARNING "No Jellyfin servers configured for authentication";;
      mret (false, None, None)
  | _ => for_server jellyfin_servers username password
  end.

End Remote.

Section Accounts.

(** The hash that [AdminAccount.set_password] stores (werkzeug's
    [generate_password_hash], reached through [app.models]). *)
Variable generate_password_hash : string -> string.

(** Modelled from the spec: [AdminAccount.set_password] ([app.models] is not
    under src/) replaces the account's password hash (section 3) by the hash
    of the given password. *)
Definition set_password (account : AdminAccount.t) (password : string) : AdminAccount.t :=
  AdminAccount.mk (AdminAccount.username account) (AdminAccount.role account)
    (Some (generate_password_hash password))
    (AdminAccount.jellyfin_server account) (AdminAccount.jellyfin_user_id account).

(** [token] is the value [secrets.token_urlsafe(32)] returns in this call. *)
Definition create_guest_account_from_jellyfin
  (username jellyfin_server_name : string) (user_info : Py.json) (token : string)
  : M AdminAccount.t :=
  jellyfin_user_id ← lift (dict_get user_info "id" JNull);
  let account :=
    AdminAccount.mk username "guest" None (Some jellyfin_server_name) jellyfin_user_id in
  let account := set_password account token in
  add_account account;;
  commit;;
  logging INFO ("Created guest account for Jellyfin user '" +:+ username
                +:+ "' from server '" +:+ jellyfin_server_name +:+ "'");;
  mret account.

(** [AdminAccount.query.filter_by(username=username).all()] *)
Definition accounts_named (username : string) (s : Session) : list AdminAccount.t :=
  List.filter (fun a => String.eqb (AdminAccount.username a) username) (accounts (live s)).

(** The two linkage columns are both set or both absent. *)
Definition linkage_together (a : AdminAccount.t) : Prop :=
  AdminAccount.jellyfin_server a = None <-> AdminAccount.jellyfin_user_id a = JNull.

(** [AdminAccount.query.filter_by(username=username).first()] *)
Definition account_by_username (username : string) (s : Session) : option AdminAccount.t :=
  List.find (fun a => String.eqb (AdminAccount.username a) username) (accounts (live s)).

End Accounts.

Section Login.

Variable requests_post : string -> Py.json -> Py.json -> post_outcome.
Variable generate_password_hash : string -> string.

(** Modelled from the spec: the account-provisioning step of section 4.6.
    The login route that calls [create_guest_account_from_jellyfin] is not
    under src/ (tests/test_jellyfin_auth.py reaches it through POST /login).
    When an account with this username exists it is reused as it is;
    otherwise one is created. *)
Definition provision_account (username server_name : string) (user_info : Py.json)
  (token : string) : M AdminAccount.t :=
  s ← get_db;
  match account_by_username username s with
  | Some account => mret account
  | None =>
      create_guest_account_from_jellyfin generate_password_hash
        username server_name user_info token
  end.

(** Modelled from the spec: the delegated part of the login path (sections 2
    and 4.6; the route is not under src/): the credentials are checked
    against the remote servers and, on success, the local account is
    provisioned.  [None] stands for falling through to the local password
    check. *)
Definition delegated_login (username password token : string) : M (option AdminAccount.t) :=
  '(success, server_name, user_info) ←
     authenticate_jellyfin_user requests_post username password;
  match (success : bool), server_name, user_info with
  | true, Some server_name, Some user_info =>
      account ← provision_account username server_name user_info token;
      mret (Some account)
  | _, _, _ => mret None
  end.

End Login.

End JellyfinAuth.

(* ===================================================================== *)
(** * app/services/media/client_base.py *)
(* ===================================================================== *)

Module ClientBase.

(** A subclass of [MediaClient]: the class attribute [_server_type] that
    [register_media_client] sets, its implementation of the abstract
    [statistics], and its overrides, if any, of the two lightweight
    methods. *)
Record ClientClass : Type := mkClass {
  _server_type : attr string;
  statistics_impl : M json;
  get_user_count_override : option (M json);
  get_server_info_override : option (M json)
}.

(** [register_media_client(name)(cls)], with the registry [CLIENTS] passed
    explicitly. *)
Definition register_media_client (name : string) (cls : ClientClass)
  (CLIENTS : gmap string ClientClass) : ClientClass * gmap string ClientClass :=
  let cls' := mkClass (Bound name) (statistics_impl cls)
                (get_user_count_override cls) (get_server_info_override cls) in
  (cls', <[name := cls']> CLIENTS).

(** An instance: its class and its instance attributes.  [url] and [token]
    may hold [None]. *)
Record MediaClient : Type := mkClient {
  class : ClientClass;
  server_row : attr MediaServer.t;
  server_id : attr Z;
  url : attr (option string);
  token : attr (option string)
}.

(** The object before [__init__] has run: no instance attribute is bound
    (the class body only annotates [url] and [token]). *)
Definition new (cls : ClientClass) : MediaClient :=
  mkClient cls Unset Unset Unset Unset.

Definition _attach_server_row (self : MediaClient) (row : MediaServer.t) : MediaClient :=
  mkClient (class self)
    (Bound row)
    (Bound (MediaServer.id row))
    (Bound (Some (MediaServer.url row)))
    (Bound (MediaServer.api_key row)).

(** [db.session.query(MediaServer).filter_by(server_type=server_type).first()] *)
Definition first_server_of_type (server_type : string) (s : Session) : option MediaServer.t :=
  List.find (fun m => String.eqb (MediaServer.server_type m) server_type)
            (servers (live s)).

(** [db.session.query(Settings.value).filter_by(key=key).scalar()] *)
Definition setting (key : string) (s : Session) : option string :=
  settings (live s) !! key.

(** [getattr(self.__class__, "_server_type", None)], kept when it is
    truthy. *)
Definition class_server_type (cls : ClientClass) : option string :=
  nonempty (match _server_type cls with Bound t => Some t | Unset => None end).

Definition __init__ (self : MediaClient) (media_server : option MediaServer.t)
  (url_key token_key : string) (s : Session) : MediaClient :=
  match media_server with
  | Some row => _attach_server_row self row
  | None =>
      let legacy :=
        mkClient (class self) (server_row self) (server_id self)
          (Bound (setting url_key s)) (Bound (setting token_key s)) in
      match class_server_type (class self) with
      | Some server_type =>
          match first_server_of_type server_type s with
          | Some row => _attach_server_row self row
          | None => legacy
          end
      | None => legacy
      end
  end.

(** No row of the server table has the tag of the class, if it has one. *)
Definition no_matching_row (cls : ClientClass) (s : Session) : Prop :=
  forall tag, _server_type cls = Bound tag ->
              Forall (fun m => MediaServer.server_type m <> tag) (servers (live s)).

(** [MediaClient(media_server)] with the default keyword arguments. *)
Definition construct (cls : ClientClass) (media_server : option MediaServer.t)
  (s : Session) : MediaClient :=
  __init__ (new cls) media_server "server_url" "api_key" s.

Section ImageProxy.

(** [ImageProxyService.generate_token(image_url, server_id=...)] and
    [urllib.parse.quote_plus]. *)
Variable generate_token : string -> Z -> string.
Variable quote_plus : string -> string.

Definition generate_image_proxy_url (self : MediaClient) (image_url : string)
  : result string :=
  match getattr "server_id" (server_id self) with
  | Ok sid =>
      let token := generate_token image_url sid in
      Ok ("/image-proxy?token=" +:+ quote_plus token)
  | Raise e => Raise e
  end.

End ImageProxy.

(** [Invitation.query.filter_by(code=code).first()] *)
Definition invitation_by_code (code : string) (s : Session) : option Invitation.t :=
  List.find (fun i => String.eqb (Invitation.code i) code) (invitations (live s)).

Definition has_code (code : string) (u : User.t) : bool :=
  match User.code u with
  | Some c => String.eqb c code
  | None => false
  end.

Definition has_email (email : string) (u : User.t) : bool :=
  match User.email u with
  | Some e => String.eqb e email
  | None => false
  end.

(** [User.query.filter_by(code=code).first()] *)
Definition user_by_code (code : string) (s : Session) : option User.t :=
  List.find (has_code code) (users (live s)).

(** [User.query.filter_by(code=code, email=email).first()] *)
Definition user_by_code_email (code email : string) (s : Session) : option User.t :=
  List.find (fun u => has_code code u && has_email email u) (users (live s)).

(** [user_kwargs["identity_id"] = identity_id] *)
Definition set_identity_id (user_kwargs : User.t) (identity_id : option Z) : User.t :=
  User.mk (User.username user_kwargs) (User.email user_kwargs) (User.code user_kwargs)
    identity_id (User.token user_kwargs) (User.server_id user_kwargs).

(** [if existing_user and existing_user.identity_id:
       user_kwargs["identity_id"] = existing_user.identity_id] *)
Definition adopt_identity (existing_user : option User.t) (user_kwargs : User.t) : User.t :=
  match existing_user with
  | Some existing_user =>
      if truthy_int (User.identity_id existing_user)
      then set_identity_id user_kwargs (User.identity_id existing_user)
      else user_kwargs
  | None => user_kwargs
  end.

Section IdentityLinking.

(** [EMAIL_RE.fullmatch] of [app.services.media.service] and
    [cleanup_expired_user_by_email] of [app.services.expiry]; the count the
    latter returns is not used. *)
Variable EMAIL_RE_fullmatch : string -> bool.
Variable cleanup_expired_user_by_email : string -> World -> World.

(** The keyword arguments after the [if code:] block.  [user_kwargs] holds
    one field per keyword of [User(...)], [None] for a keyword that is not
    given. *)
Definition link_identity (user_kwargs : User.t) (s : Session) : User.t :=
  let code := User.code user_kwargs in
  let email := User.email user_kwargs in
  match nonempty code with
  | Some code =>
      match invitation_by_code code s with
      | Some invitation =>
          if negb (truthy_bool (Invitation.unlimited invitation)) then
            adopt_identity (user_by_code code s) user_kwargs
          else
            match nonempty email with
            | Some email =>
                if EMAIL_RE_fullmatch email
                then adopt_identity (user_by_code_email code email s) user_kwargs
                else user_kwargs
            | None => user_kwargs
            end
      | None => user_kwargs
      end
  | None => user_kwargs
  end.

Definition cleanup (email : option string) : M unit :=
  match nonempty email with
  | Some email => fun w => (Ok tt, cleanup_expired_user_by_email email w)
  | None => mret tt
  end.

Definition _create_user_with_identity_linking (user_kwargs : User.t) : M User.t :=
  s ← get_db;
  let user_kwargs' := link_identity user_kwargs s in
  cleanup (User.email user_kwargs);;
  let new_user := user_kwargs' in
  add_user new_user;;
  mret new_user.

(** Linking that would only compute: the session after the call is the
    session before it. *)
Definition leaves_session_alone (user_kwargs : User.t) (w : World) : Prop :=
  db (snd (_create_user_with_identity_linking user_kwargs w)) = db w.

End IdentityLinking.

(** [self.statistics()]: abstract in the base class. *)
Definition statistics (self : MediaClient) : M json :=
  invoke "statistics" (statistics_impl (class self)).

Definition default_get_user_count (self : MediaClient) : M json :=
  try_except
    (stats ← statistics self;
     user_stats ← lift (dict_get stats "user_stats" (JDict []));
     lift (dict_get user_stats "total_users" (JInt 0)))
    (fun _ => mret (JInt 0)).

Definition unknown_server_info : json :=
  JDict [("version", JStr "Unknown");
         ("transcoding_sessions", JInt 0);
         ("active_sessions", JInt 0)].

Definition default_get_server_info (self : MediaClient) : M json :=
  try_except
    (stats ← statistics self;
     server_stats ← lift (dict_get stats "server_stats" (JDict []));
     version ← lift (dict_get server_stats "version" (JStr "Unknown"));
     server_stats' ← lift (dict_get stats "server_stats" (JDict []));
     transcoding_sessions ← lift (dict_get server_stats' "transcoding_sessions" (JInt 0));
     user_stats ← lift (dict_get stats "user_stats" (JDict []));
     active_sessions ← lift (dict_get user_stats "active_sessions" (JInt 0));
     mret (JDict [("version", version);
                  ("transcoding_sessions", transcoding_sessions);
                  ("active_sessions", active_sessions)]))
    (fun _ => mret unknown_server_info).

(** [self.get_user_count()] and [self.get_server_info()] dispatch to the
    subclass's override when there is one. *)
Definition get_user_count (self : MediaClient) : M json :=
  invoke "get_user_count"
    (match get_user_count_override (class self) with
     | Some override => override
     | None => default_get_user_count self
     end).

Definition get_server_info (self : MediaClient) : M json :=
  invoke "get_server_info"
    (match get_server_info_override (class self) with
     | Some override => override
     | None => default_get_server_info self
     end).

Definition get_readonly_statistics (self : MediaClient) : M json :=
  total_users ← get_user_count self;
  server_stats ← get_server_info self;
  mret (JDict [("user_stats",
                JDict [("total_users", total_users); ("active_sessions", JInt 0)]);
               ("server_stats", server_stats);
               ("library_stats", JDict []);
               ("content_stats", JDict [])]).

(** How many times [statistics] has been called. *)
Definition statistics_calls (w : World) : nat :=
  length (List.filter (String.eqb "statistics") (calls w)).

(** A computation that neither calls [statistics] nor changes the session,
    live or stored. *)
Definition read_only {A} (m : M A) : Prop :=
  forall w, db (snd (m w)) = db w /\ statistics_calls (snd (m w)) = statistics_calls w.

End ClientBase.

(* ===================================================================== *)
(** * Concrete data for the examples *)
(* ===================================================================== *)

Module Sample.

Definition no_tables : Tables := mkTables [] [] [] [] ∅.

Definition world_of (t : Tables) : World := mkWorld (mkSession t t) [] [].

Definition empty_world : World := world_of no_tables.

Definition guest : AdminAccount.t :=
  AdminAccount.mk "guest_user" "guest" (Some "hash") None JNull.

(** A view that logs and returns its argument plus one. *)
Definition view (n : Z) : M Z :=
  logging INFO "view called";; mret (n + 1).

Definition jellyfin (id : Z) (name url : string) : MediaServer.t :=
  MediaServer.mk id name "jellyfin" url (Some "test_key") true.

Definition first_server : MediaServer.t := jellyfin 1 "First" "http://one:8096".
Definition second_server : MediaServer.t := jellyfin 2 "Second" "http://two:8096/".
Definition third_server : MediaServer.t := jellyfin 3 "Third" "http://three:8096".
Definition plex_server : MediaServer.t :=
  MediaServer.mk 4 "Plex" "plex" "http://plex:32400" None true.

(** The body of a successful answer, as in tests/test_jellyfin_auth.py. *)
Definition success_body : json :=
  JDict [("User", JDict [("Id", JStr "test-user-id");
                         ("Name", JStr "testuser");
                         ("HasPassword", JBool true);
                         ("HasConfiguredPassword", JBool true);
                         ("Policy", JDict [])]);
         ("ServerId", JStr "test-server-id");
         ("AccessToken", JStr "test-access-token")].

Definition success_info : json :=
  JDict [("id", JStr "test-user-id");
         ("name", JStr "testuser");
         ("has_password", JBool true);
         ("has_configured_password", JBool true);
         ("server_id", JStr "test-server-id");
         ("access_token", JStr "test-access-token");
         ("policy", JDict [])].

(** A network in which the first two servers cannot be reached, the third
    accepts the credentials and any other server rejects them. *)
Definition network (url : string) (payload hdrs : json) : JellyfinAuth.post_outcome :=
  if String.eqb url "http://one:8096/Users/AuthenticateByName" then
    JellyfinAuth.Failed (RequestException "connection refused")
  else if String.eqb url "http://two:8096/Users/AuthenticateByName" then
    JellyfinAuth.Failed (RequestException "timed out")
  else if String.eqb url "http://three:8096/Users/AuthenticateByName" then
    JellyfinAuth.Responded (JellyfinAuth.mkResponse 200 "" (Ok success_body))
  else
    JellyfinAuth.Responded
      (JellyfinAuth.mkResponse 401 "" (Raise (ValueError "no JSON in the body"))).

(** The server and the answers of tests/test_jellyfin_auth.py. *)
Definition test_server : MediaServer.t := jellyfin 1 "Test Jellyfin" "http://localhost:8096".

Definition test_world : World := world_of (mkTables [] [] [] [test_server] ∅).

Definition accepting (url : string) (payload hdrs : json) : JellyfinAuth.post_outcome :=
  if String.eqb url "http://localhost:8096/Users/AuthenticateByName" then
    JellyfinAuth.Responded (JellyfinAuth.mkResponse 200 "" (Ok success_body))
  else JellyfinAuth.Failed (RequestException "connection refused").

Definition rejecting (url : string) (payload hdrs : json) : JellyfinAuth.post_outcome :=
  JellyfinAuth.Responded
    (JellyfinAuth.mkResponse 401 "" (Raise (ValueError "no JSON in the body"))).

Definition admin : AdminAccount.t :=
  AdminAccount.mk "alice" "admin" (Some "hash") None JNull.

(** A server that answers 200 with an empty JSON object. *)
Definition bare_server : MediaServer.t := jellyfin 5 "Bare" "http://bare:8096".

Definition bare_network (url : string) (payload hdrs : json) : JellyfinAuth.post_outcome :=
  JellyfinAuth.Responded (JellyfinAuth.mkResponse 200 "{}" (Ok (JDict []))).

Definition bare_info : json :=
  JDict [("id", JNull);
         ("name", JNull);
         ("has_password", JBool true);
         ("has_configured_password", JBool true);
         ("server_id", JNull);
         ("access_token", JNull);
         ("policy", JDict [])].

Definition bare_world : World := world_of (mkTables [] [] [] [bare_server] ∅).

Definition hash (password : string) : string := "hash of " +:+ password.

(** A stand-in for [EMAIL_RE]: a local part, one [@], and a domain with a
    dot that is neither its first nor its last character. *)
Fixpoint split_at (s : string) : option (string * string) :=
  match s with
  | EmptyString => None
  | String c rest =>
      if Ascii.eqb c "@"%char then Some (EmptyString, rest)
      else match split_at rest with
           | Some (l, d) => Some (String c l, d)
           | None => None
           end
  end.

Fixpoint inner_dot (s : string) : bool :=
  match s with
  | EmptyString => false
  | String c rest =>
      (Ascii.eqb c "."%char && negb (String.eqb rest "")) || inner_dot rest
  end.

Definition email_like (s : string) : bool :=
  match split_at s with
  | Some (l, d) =>
      negb (String.eqb l "")
      && match split_at d with Some _ => false | None => true end
      && match d with EmptyString => false | String _ rest => inner_dot rest end
  | None => false
  end.

(** An expiry service that finds nothing to purge. *)
Definition nothing_to_purge (email : string) (w : World) : World := w.

Definition limited_invitation : Invitation.t := Invitation.mk "LIMITED1" None.
Definition open_invitation : Invitation.t := Invitation.mk "OPEN0001" (Some true).

Definition invited : World :=
  world_of (mkTables [limited_invitation; open_invitation] [] [] [] ∅).

(** Keyword arguments of a redemption. *)
Definition redeem (username email code : string) (identity_id : option Z) : User.t :=
  User.mk (Some username) (Some email) (Some code) identity_id (Some "token") (Some 1).

(** An unlimited code redeemed by two people, then again by the first. *)
Definition alice : User.t := redeem "alice" "a@x.com" "OPEN0001" (Some 7).
Definition bob : User.t := redeem "bob" "b@x.com" "OPEN0001" None.
Definition alice_again : User.t := redeem "alice-on-plex" "a@x.com" "OPEN0001" None.

Definition redeemed (user_kwargs : User.t) (w : World) : World :=
  snd (ClientBase._create_user_with_identity_linking email_like nothing_to_purge
         user_kwargs w).

(** A client class whose [statistics] synchronises users into the local
    table and commits, and which inherits the two lightweight methods. *)
Definition synced_user : User.t :=
  User.mk (Some "remote-user") None None None (Some "remote-id") (Some 1).

Definition sync_statistics : M json :=
  add_user synced_user;;
  commit;;
  mret (JDict [("user_stats", JDict [("total_users", JInt 1); ("active_sessions", JInt 0)]);
               ("server_stats", JDict [("version", JStr "10.9.0")])]).

Definition syncing_class : ClientBase.ClientClass :=
  ClientBase.mkClass (Bound "jellyfin") sync_statistics None None.

(** The same class with both lightweight methods overridden. *)
Definition light_class : ClientBase.ClientClass :=
  ClientBase.mkClass (Bound "jellyfin") sync_statistics
    (Some (mret (JInt 3)))
    (Some (mret (JDict [("version", JStr "10.9.0")]))).

(** Only a Plex server is configured; the legacy settings hold a URL. *)
Definition legacy_session : Session :=
  let t := mkTables [] [] [] [plex_server]
             {[ "server_url" := "http://legacy:8096" ]} in
  mkSession t t.

Definition two_servers_session : Session :=
  let t := mkTables [] [] [] [plex_server; second_server; third_server] ∅ in
  mkSession t t.

Definition three_servers : World :=
  world_of (mkTables [] [] [] [first_server; plex_server; second_server; third_server] ∅).

(** A server in trouble: it answers 500 with a body that is not JSON. *)
Definition erroring (url : string) (payload hdrs : json) : JellyfinAuth.post_outcome :=
  JellyfinAuth.Responded
    (JellyfinAuth.mkResponse 500 "Internal Server Error"
       (Raise (ValueError "Expecting value: line 1 column 1 (char 0)"))).

(** The three servers followed by a fourth, and a network that differs from
    [network] at the address of the fourth only. *)
Definition four_servers : World :=
  world_of (mkTables [] [] []
              [first_server; plex_server; second_server; third_server; bare_server] ∅).

Definition other_network (url : string) (payload hdrs : json) : JellyfinAuth.post_outcome :=
  if String.eqb url "http://bare:8096/Users/AuthenticateByName" then
    JellyfinAuth.Responded (JellyfinAuth.mkResponse 200 "{}" (Ok (JDict [])))
  else network url payload hdrs.

End Sample.

(* ===================================================================== *)
(** * The rest of the three files *)
(* ===================================================================== *)

(** ** app/decorators.py: what a guard can do *)

Module GuardOutcome.

Import Decorators.

(** What a guard may do with a request: run the view and hand back what it
    returns, answer with the unauthorized response, or raise 403; in the
    last two cases the world is as it was. *)
Inductive intercepts {Args R : Type} (f : Args -> M R) (p : Principal) (args : Args)
  (w : World) : result (response R) * World -> Prop :=
| Passes : intercepts f p args w (call_view f args w)
| Redirects : is_authenticated p = false -> intercepts f p args w (Ok Unauthorized, w)
| Forbids : is_authenticated p = true ->
            intercepts f p args w (Raise (HTTPException 403), w).

End GuardOutcome.

(** ** Worlds that differ by log records only *)

(** [w'] is [w] with records appended to the log: the session and the
    recorded calls are the same. *)
Definition only_logs (w w' : World) : Prop :=
  exists records, w' = mkWorld (db w) (log w ++ records) (calls w).

(** ** client_base.py: [MediaClient.join] *)

Module JoinFlow.

(** The party-popper sign that ends the notification, as its UTF-8 bytes. *)
Definition tada : string :=
  String "240"%char (String "159"%char (String "142"%char (String "137"%char EmptyString))).

Section Join.

(** The subclass's [_do_join], and [notify] of [app.services.notifications]
    called as [notify(title, message, tags=..., event_type=...)]; what
    [notify] returns is not used. *)
Variable _do_join : string -> string -> string -> string -> M (bool * string).
Variable notify : string -> string -> string -> string -> M unit.

Definition join (username password confirm code : string) : M (bool * string) :=
  '(success, message) ← _do_join username password confirm code;
  (if (success : bool) then
     try_except
       (notify "New User" ("User " +:+ username +:+ " has joined your server! " +:+ tada)
          "tada" "user_joined")
       (fun e => logging WARNING ("Failed to send join notification: " +:+ exn_str e))
   else mret tt);;
  mret (success, message).

End Join.

End JoinFlow.

(** ** client_base.py: [RestApiMixin] *)

Module RestApiMixin.

Import ClientBase.

(** [s.rstrip('/')] *)
Fixpoint rstrip_slash (s : string) : string :=
  match s with
  | EmptyString => EmptyString
  | String c rest =>
      let rest' := rstrip_slash rest in
      if Ascii.eqb c "/"%char && String.eqb rest' "" then EmptyString
      else String c rest'
  end.

(** The keyword arguments of a call: [headers], when given, and the others,
    which go to [requests.request] as they are. *)
Record kwargs (K : Type) : Type := mkKwargs {
  kw_headers : option (gmap string string);
  kw_rest : K
}.
Arguments mkKwargs {K} kw_headers kw_rest.
Arguments kw_headers {K} k.
Arguments kw_rest {K} k.

(** What [_headers] returns in the mixin itself. *)
Definition default_headers : gmap string string := {[ "Accept" := "application/json" ]}.

(** [{**defaults, **overrides}] *)
Definition merge_headers (defaults overrides : gmap string string) : gmap string string :=
  overrides ∪ defaults.

(** The arrow that starts the second log record, as its UTF-8 bytes. *)
Definition arrow : string :=
  String "226"%char (String "134"%char (String "146"%char EmptyString)).

Section Requests.

Context {K : Type}.

(** [self._headers()], which a subclass may override; [str.upper];
    [requests.request(method, url, headers=headers, timeout=10, **kwargs)];
    and [response.raise_for_status()]. *)
Variable _headers : gmap string string.
Variable upper : string -> string.
Variable requests_request :
  string -> string -> gmap string string -> K -> JellyfinAuth.post_outcome.
Variable raise_for_status : JellyfinAuth.Response -> result unit.

Definition send (method url : string) (hdrs : gmap string string) (rest : K)
  : M JellyfinAuth.Response :=
  match requests_request method url hdrs rest with
  | JellyfinAuth.Responded r => mret r
  | JellyfinAuth.Failed e => raise e
  end.

Definition _request (self : MediaClient) (method path : string) (kw : kwargs K)
  : M JellyfinAuth.Response :=
  self_url ← lift (getattr "url" (url self));
  match self_url with
  | None => raise (ValueError "Media server URL is not configured")
  | Some base =>
      let url := rstrip_slash base +:+ path in
      let hdrs :=
        merge_headers _headers
          (match kw_headers kw with Some h => h | None => ∅ end) in
      logging INFO (upper method +:+ " " +:+ url);;
      try_except
        (response ← send method url hdrs (kw_rest kw);
         logging INFO (arrow +:+ " " +:+ pretty (JellyfinAuth.status_code response));;
         lift (raise_for_status response);;
         mret response)
        (fun e =>
           logging ERROR ("Request failed: " +:+ exn_str e);;
           raise e)
  end.

Definition get (self : MediaClient) (path : string) (kw : kwargs K) :=
  _request self "GET" path kw.

Definition post (self : MediaClient) (path : string) (kw : kwargs K) :=
  _request self "POST" path kw.

Definition patch (self : MediaClient) (path : string) (kw : kwargs K) :=
  _request self "PATCH" path kw.

Definition delete (self : MediaClient) (path : string) (kw : kwargs K) :=
  _request self "DELETE" path kw.

Definition put (self : MediaClient) (path : string) (kw : kwargs K) :=
  _request self "PUT" path kw.

End Requests.

End RestApiMixin.

(** ** client_base.py: user details and the metadata cache *)

Module Metadata.

(** [MediaUserDetails(user_id=..., username=..., email=..., raw_policies=...)] *)
Record MediaUserDetails : Type := mkDetails {
  user_id : string;
  username : json;
  email : json;
  raw_policies : json
}.

(** [user.token if user.token else None] *)
Definition _get_user_identifier_for_details (user : User.t) : option string :=
  nonempty (User.token user).

(** [f"{user.username}"] *)
Definition username_str (user : User.t) : string :=
  match User.username user with
  | Some name => name
  | None => "None"
  end.

(** [db.session.rollback()]: what was pending is dropped. *)
Definition rollback : M unit :=
  fun w => (Ok tt, mkWorld (mkSession (stored (db w)) (stored (db w))) (log w) (calls w)).

Section Batch.

(** The subclass's [get_user]; [User.update_standardized_metadata] of
    [app.models], which writes the metadata columns of the row; and the
    exception, if any, with which the storage engine refuses a commit. *)
Variable get_user : string -> M json.
Variable update_standardized_metadata : User.t -> MediaUserDetails -> M unit.
Variable commit_error : World -> option exn.

(** The default [get_user_details], for an identifier that is a string. *)
Definition get_user_details (user_identifier : string) : M MediaUserDetails :=
  raw_details ← get_user user_identifier;
  username ← lift (dict_get raw_details "username" (JStr "Unknown"));
  email ← lift (dict_get raw_details "email" JNull);
  mret (mkDetails user_identifier username email raw_details).

(** One turn of the loop; the result tells whether [cached_count] is
    incremented. *)
Definition cache_one (user : User.t) : M bool :=
  try_except
    (match _get_user_identifier_for_details user with
     | None => mret false
     | Some user_identifier =>
         details ← get_user_details user_identifier;
         update_standardized_metadata user details;;
         mret true
     end)
    (fun e =>
       logging WARNING ("Failed to cache metadata for user " +:+ username_str user
                        +:+ ": " +:+ exn_str e);;
       mret false).

Fixpoint for_user (users : list User.t) (cached_count : nat) : M nat :=
  match users with
  | [] => mret cached_count
  | user :: rest =>
      cached ← cache_one user;
      for_user rest (if (cached : bool) then S cached_count else cached_count)
  end.

(** [db.session.commit()] when the engine may refuse. *)
Definition commit_or_raise : M unit :=
  fun w =>
    match commit_error w with
    | Some e => (Raise e, w)
    | None => commit w
    end.

Definition _cache_user_metadata_batch (users : list User.t) : M unit :=
  match users with
  | [] => mret tt
  | _ =>
      cached_count ← for_user users 0%nat;
      if Nat.ltb 0 cached_count then
        try_except
          (commit_or_raise;;
           logging INFO ("Cached metadata for " +:+ pretty cached_count +:+ " users"))
          (fun e =>
             logging ERROR ("Failed to commit metadata cache: " +:+ exn_str e);;
             rollback)
      else mret tt
  end.

End Batch.

End Metadata.

(** ** client_base.py: reading the dictionary of [statistics] *)

(** [stats.get(key, {})], when [.get] can be called on it: the fields of
    the entry, none for a missing entry; [None] when the entry is there and
    is not a dictionary. *)
Definition entry_fields (items : list (string * json)) (key : string)
  : option (list (string * json)) :=
  match items_get items key with
  | None => Some []
  | Some (JDict fields) => Some fields
  | Some _ => None
  end.

(** ** Concrete data for the rest *)

Module Cases.

(** A REST back-end: one path is served, one is forbidden, the rest of
    the network is down.  The only keyword argument besides [headers] is
    absent. *)
Definition rest_server (method url : string) (hdrs : gmap string string) (rest : unit)
  : JellyfinAuth.post_outcome :=
  if String.eqb url "http://three:8096/System/Info" then
    JellyfinAuth.Responded (JellyfinAuth.mkResponse 200 "{}" (Ok (JDict [])))
  else if String.eqb url "http://three:8096/Users" then
    JellyfinAuth.Responded (JellyfinAuth.mkResponse 403 "Forbidden" (Ok JNull))
  else JellyfinAuth.Failed (RequestException "connection refused").

(** [raise_for_status] as [requests] has it for error statuses. *)
Definition raise_for_status (r : JellyfinAuth.Response) : result unit :=
  if Z.leb 400 (JellyfinAuth.status_code r) && Z.ltb (JellyfinAuth.status_code r) 600
  then Raise (RequestException (pretty (JellyfinAuth.status_code r) +:+ " Error"))
  else Ok tt.

Definition client_at (base : option string) : ClientBase.MediaClient :=
  ClientBase.mkClient Sample.syncing_class Unset Unset (Bound base) (Bound None).

(** A [_do_join] that accepts everybody but [mallory], and a notification
    service that is down. *)
Definition do_join (username password confirm code : string) : M (bool * string) :=
  if String.eqb username "mallory" then mret (false, "Invalid invitation")
  else add_user (Sample.redeem username "a@x.com" code None);; mret (true, "").

Definition notify_down (title message tags event_type : string) : M unit :=
  raise (RequestException "ntfy unreachable").

(** A media server that knows the user with token [tok-a] only; a metadata
    update that marks the session; a storage engine that is locked. *)
Definition get_user (user_identifier : string) : M json :=
  if String.eqb user_identifier "tok-a"
  then mret (JDict [("username", JStr "alice"); ("Policy", JDict [])])
  else raise (RequestException "404 Client Error: Not Found").

Definition update_metadata (user : User.t) (details : Metadata.MediaUserDetails) : M unit :=
  add_user user.

Definition locked (w : World) : option exn := Some (RuntimeError "database is locked").

Definition user_with_token (username token : string) : User.t :=
  User.mk (Some username) None None None (Some token) (Some 1).

Definition user_without_token (username : string) : User.t :=
  User.mk (Some username) None None None None (Some 1).

(** The network of [Sample.network], except that the Plex server too would
    accept the credentials if it were asked. *)
Definition plex_answers (url : string) (payload hdrs : json) : JellyfinAuth.post_outcome :=
  if String.eqb url "http://plex:32400/Users/AuthenticateByName" then
    JellyfinAuth.Responded
      (JellyfinAuth.mkResponse 200 ""
         (Ok (JDict [("User", JDict [("Id", JStr "plex-user-id");
                                     ("Name", JStr "testuser")])])))
  else Sample.network url payload hdrs.

(** The invitations of [Sample.invited] in the other order, and a user
    table whose first row redeemed the unlimited code. *)
Definition open_first : World :=
  Sample.world_of (mkTables [Sample.open_invitation; Sample.limited_invitation]
              [Sample.alice] [] [] ∅).

End Cases.

(* ===================================================================== *)
(** * Properties *)
(* ===================================================================== *)

(** ** Queries: [first()] and [all()] over a table *)

Lemma find_none_filter_nil {A} (p : A -> bool) (l : list A) :
  List.find p l = None -> List.filter p l = [].
Proof.
  induction l as [| x l IH]; simpl; [reflexivity |].
  destruct (p x); [discriminate | exact IH].
Qed.

Lemma find_app_none {A} (p : A -> bool) (l : list A) (x : A) :
  List.find p l = None -> p x = true -> List.find p (l ++ [x]) = Some x.
Proof.
  induction l as [| y l IH]; simpl; intros Hn Hx.
  - rewrite Hx. reflexivity.
  - destruct (p y); [discriminate | auto].
Qed.

Lemma find_none_forall {A} (p : A -> bool) (l : list A) :
  List.find p l = None <-> (forall x, In x l -> p x = false).
Proof.
  split.
  - intros H x Hin. exact (List.find_none p l H x Hin).
  - induction l as [| y l IH]; simpl; intros H; [reflexivity |].
    rewrite (H y (or_introl eq_refl)). apply IH. intros x Hin. apply H. right. exact Hin.
Qed.

Lemma find_first {A} (p : A -> bool) (pre post : list A) (x : A) :
  Forall (fun y => p y = false) pre -> p x = true ->
  List.find p (pre ++ x :: post) = Some x.
Proof.
  intros Hpre Hx. induction Hpre as [| y pre Hy _ IH]; simpl.
  - rewrite Hx. reflexivity.
  - rewrite Hy. exact IH.
Qed.

(** ** The guards of app/decorators.py *)

Module DecoratorsFacts.

Import Decorators.

Section Guards.

Context {Args R : Type}.
Variable f : Args -> M R.

(** A guard that lets the request through runs the view and hands back
    what the view returned, or lets its exception through. *)
Lemma call_view_run (args : Args) (w : World) :
  call_view f args w =
  match f args w with
  | (Ok r, w') => (Ok (Returned r), w')
  | (Raise e, w') => (Raise e, w')
  end.
Proof.
  unfold call_view, mbind, M_bind. destruct (f args w) as [[r | e] w']; reflexivity.
Qed.

Lemma guest_is_not_admin (pk : Z) (a : AdminAccount.t) :
  AdminAccount.role a = "guest" ->
  is_admin_call (account_principal pk a) = false
  /\ id_is_admin (id (account_principal pk a)) = false.
Proof. intros Hrole. unfold is_admin_call. simpl. rewrite Hrole. split; reflexivity. Qed.

(** C5. For a logged-in account [a] whose role is guest and any view [f]:
    [admin_required] raises the 403 exception and leaves the world as it
    was, whatever [f] is, so [f] is not run; [guest_allowed] runs [f] and
    hands back its return value (or its exception) and its effects.  For a
    [current_user] [p] that is not authenticated, both guards return the
    login manager's unauthorized response without running [f]. *)
Theorem guest_forbidden_on_admin_passes_on_guest_allowed
  (pk : Z) (a : AdminAccount.t) (p : Principal) (args : Args) (w : World) :
  AdminAccount.role a = "guest" ->
  is_authenticated p = false ->
  admin_required f (account_principal pk a) args w = (Raise (HTTPException 403), w)
  /\ guest_allowed f (account_principal pk a) args w =
     match f args w with
     | (Ok r, w') => (Ok (Returned r), w')
     | (Raise e, w') => (Raise e, w')
     end
  /\ admin_required f p args w = (Ok Unauthorized, w)
  /\ guest_allowed f p args w = (Ok Unauthorized, w).
Proof.
  intros Hrole Hanon.
  destruct (guest_is_not_admin pk a Hrole) as [Hadm Hid].
  split; [| split; [| split]].
  - unfold admin_required. rewrite Hadm, Hid. reflexivity.
  - unfold guest_allowed. simpl. apply call_view_run.
  - unfold admin_required. rewrite Hanon. reflexivity.
  - unfold guest_allowed. rewrite Hanon. reflexivity.
Qed.

End Guards.

(** An admin account and the legacy admin pass [admin_required]; the
    legacy admin, which has no [role], passes [guest_allowed] by its id. *)
Example admin_passes_admin_required :
  admin_required Sample.view (account_principal 1 Sample.admin) 41 Sample.empty_world
  = (Ok (Returned 42), logged INFO "view called" Sample.empty_world).
Proof. reflexivity. Qed.

Example legacy_admin_passes_both :
  admin_required Sample.view legacy_admin 41 Sample.empty_world
  = (Ok (Returned 42), logged INFO "view called" Sample.empty_world)
  /\ guest_allowed Sample.view legacy_admin 41 Sample.empty_world
     = (Ok (Returned 42), logged INFO "view called" Sample.empty_world).
Proof. split; reflexivity. Qed.

Example guest_permissions :
  permission_required Sample.view (account_principal 7 Sample.guest) "create_invites" 41
    Sample.empty_world
  = (Ok (Returned 42), logged INFO "view called" Sample.empty_world)
  /\ permission_required Sample.view (account_principal 7 Sample.guest) "manage_users" 41
       Sample.empty_world
     = (Raise (HTTPException 403), Sample.empty_world).
Proof. split; reflexivity. Qed.

Lemma guest_forbidden_on_admin_passes_on_guest_allowed_witness :
  admin_required Sample.view (account_principal 7 Sample.guest) 41 Sample.empty_world
    = (Raise (HTTPException 403), Sample.empty_world)
  /\ guest_allowed Sample.view (account_principal 7 Sample.guest) 41 Sample.empty_world
     = (Ok (Returned 42),
        mkWorld (db Sample.empty_world) [(INFO, "view called")] [])
  /\ admin_required Sample.view anonymous 41 Sample.empty_world
     = (Ok Unauthorized, Sample.empty_world)
  /\ guest_allowed Sample.view anonymous 41 Sample.empty_world
     = (Ok Unauthorized, Sample.empty_world).
Proof.
  exact (guest_forbidden_on_admin_passes_on_guest_allowed
           Sample.view 7 Sample.guest anonymous 41 Sample.empty_world
           eq_refl eq_refl).
Defined.

End DecoratorsFacts.

(** ** Delegated authentication (app/services/jellyfin_auth.py) *)

Module JellyfinAuthFacts.

Import JellyfinAuth.

(** [filter_by(server_type="jellyfin").all()] read on the table: the rows
    of type jellyfin, in table order; the rows of another type are left
    out. *)
Lemma jellyfin_servers_of_split (s : Session) (pre post : list MediaServer.t)
  (server : MediaServer.t) :
  servers (live s) = pre ++ server :: post ->
  MediaServer.server_type server = "jellyfin" ->
  jellyfin_servers_of s
  = List.filter (fun m => String.eqb (MediaServer.server_type m) "jellyfin") pre
    ++ server
    :: List.filter (fun m => String.eqb (MediaServer.server_type m) "jellyfin") post.
Proof.
  intros Htable Htype. unfold jellyfin_servers_of.
  rewrite Htable, List.filter_app. simpl. rewrite Htype. reflexivity.
Qed.

Lemma forall_of_type_jellyfin (Q : MediaServer.t -> Prop) (l : list MediaServer.t) :
  Forall (fun m => MediaServer.server_type m = "jellyfin" -> Q m) l ->
  Forall Q (List.filter (fun m => String.eqb (MediaServer.server_type m) "jellyfin") l).
Proof.
  intros Hall. induction Hall as [| m l Hm _ IH]; simpl; [constructor |].
  destruct (String.eqb_spec (MediaServer.server_type m) "jellyfin") as [Heq | _].
  - constructor; [exact (Hm Heq) | exact IH].
  - exact IH.
Qed.

Section Scan.

Variable requests_post : string -> Py.json -> Py.json -> post_outcome.
Variables username password : string.

#[local] Abbreviation authenticate_against := (_authenticate_against_server requests_post).
#[local] Abbreviation scan := (for_server requests_post).
#[local] Abbreviation succeeds := (check_succeeds requests_post username password).
#[local] Abbreviation fails := (check_fails requests_post username password).

(** What one credential check does, by the answer of the network. *)
Lemma authenticate_against_run (server_url : string) (w : World) :
  authenticate_against server_url username password w =
  match requests_post (auth_url_of server_url) (payload_of username password) headers with
  | Failed e =>
      (Raise e,
       logged ERROR
         (if is_request_exception e
          then "Network error during Jellyfin authentication: " +:+ exn_str e
          else "Unexpected error during Jellyfin authentication: " +:+ exn_str e) w)
  | Responded r =>
      if Z.eqb (status_code r) 200 then
        match (user_data ← json r; build_user_info user_data) with
        | Ok user_info =>
            (Ok (true, Some user_info),
             logged INFO ("Successfully authenticated user '" +:+ username
                          +:+ "' against Jellyfin server") w)
        | Raise e =>
            (Raise e,
             logged ERROR
               (if is_request_exception e
                then "Network error during Jellyfin authentication: " +:+ exn_str e
                else "Unexpected error during Jellyfin authentication: " +:+ exn_str e) w)
        end
      else if Z.eqb (status_code r) 401 then
        (Ok (false, None),
         logged DEBUG ("Invalid credentials for user '" +:+ username
                       +:+ "' on Jellyfin server") w)
      else
        (Ok (false, None),
         logged WARNING ("Jellyfin authentication failed with status "
                         +:+ pretty (status_code r) +:+ ": " +:+ text r) w)
  end.
Proof.
  unfold _authenticate_against_server, try_except, post, mbind, M_bind.
  destruct (requests_post _ _ _) as [r | e]; simpl.
  - destruct (Z.eqb (status_code r) 200).
    + unfold lift, result_bind. destruct (json r) as [user_data | e]; simpl.
      * destruct (build_user_info user_data) as [user_info | e]; simpl.
        -- reflexivity.
        -- destruct (is_request_exception e); reflexivity.
      * destruct (is_request_exception e); reflexivity.
    + destruct (Z.eqb (status_code r) 401); reflexivity.
  - destruct (is_request_exception e); reflexivity.
Qed.

(** One server of the loop.  A server whose check returns success ends
    the scan; the world is the one the check left. *)
Lemma scan_success (server : MediaServer.t) (rest : list MediaServer.t)
  (user_info : Py.json) (w : World) :
  succeeds server user_info ->
  scan (server :: rest) username password w =
  (Ok (true, Some (MediaServer.name server), Some user_info),
   snd (authenticate_against (MediaServer.url server) username password w)).
Proof.
  intros Hs. specialize (Hs w). simpl.
  unfold try_except, mbind, M_bind.
  destruct (authenticate_against _ _ _ w) as [[[success info] | e] w1]; simpl in *.
  - inversion Hs; subst. reflexivity.
  - discriminate.
Qed.

(** A server whose check raises or returns failure is passed over: the
    scan goes on with the next server, in a world that differs by log
    records only. *)
Lemma scan_failure (server : MediaServer.t) (rest : list MediaServer.t) (w : World) :
  fails server ->
  exists w', scan (server :: rest) username password w = scan rest username password w'
             /\ db w' = db w.
Proof.
  intros Hf. pose proof (Hf w) as Hw.
  pose proof (authenticate_against_run (MediaServer.url server) w) as Hrun.
  simpl. unfold try_except, mbind, M_bind.
  destruct (authenticate_against _ _ _ w) as [[[success info] | e] w1] eqn:E; simpl in *.
  - destruct success.
    + exfalso. exact (Hw info eq_refl).
    + exists w1. split; [reflexivity |].
      destruct (requests_post _ _ _) as [r | e]; [| discriminate].
      destruct (Z.eqb (status_code r) 200).
      * destruct (_ ← json r; build_user_info _); inversion Hrun.
      * destruct (Z.eqb (status_code r) 401); inversion Hrun; reflexivity.
  - eexists. split; [reflexivity |]. simpl.
    destruct (requests_post _ _ _) as [r | e'].
    + destruct (Z.eqb (status_code r) 200).
      * destruct (_ ← json r; build_user_info _); inversion Hrun; reflexivity.
      * destruct (Z.eqb (status_code r) 401); inversion Hrun.
    + inversion Hrun; reflexivity.
Qed.

Lemma scan_all_fail (l : list MediaServer.t) (w : World) :
  Forall fails l ->
  fst (scan l username password w) = Ok (false, None, None).
Proof.
  intros Hall. revert w. induction Hall as [| server rest Hf _ IH]; intros w.
  - reflexivity.
  - destruct (scan_failure rest w Hf) as (w' & -> & _). apply IH.
Qed.

Lemma scan_first_success (pre post : list MediaServer.t) (server : MediaServer.t)
  (user_info : Py.json) (w : World) :
  Forall fails pre ->
  succeeds server user_info ->
  fst (scan (pre ++ server :: post) username password w)
  = Ok (true, Some (MediaServer.name server), Some user_info).
Proof.
  intros Hpre Hs. revert w. induction Hpre as [| x pre Hf _ IH]; intros w; simpl app.
  - rewrite (scan_success post w Hs). reflexivity.
  - destruct (scan_failure (pre ++ server :: post) w Hf) as (w' & -> & _). apply IH.
Qed.

(** The function itself: the servers are read once, then scanned. *)
Lemma authenticate_is_scan (w : World) :
  fst (authenticate_jellyfin_user requests_post username password w)
  = fst (scan (jellyfin_servers_of (db w)) username password w).
Proof.
  unfold authenticate_jellyfin_user, mbind, M_bind, get_db.
  destruct (jellyfin_servers_of (db w)); reflexivity.
Qed.

(** A check that meets a network error, or a 401 answer, does not return
    success. *)
Lemma network_error_fails (server : MediaServer.t) (e : exn) :
  requests_post (auth_url_of (MediaServer.url server)) (payload_of username password) headers
  = Failed e ->
  fails server.
Proof.
  intros Hnet w info. rewrite authenticate_against_run, Hnet. discriminate.
Qed.

Lemma rejection_fails (server : MediaServer.t) (r : Response) :
  requests_post (auth_url_of (MediaServer.url server)) (payload_of username password) headers
  = Responded r ->
  status_code r = 401 ->
  fails server.
Proof.
  intros Hnet H401 w info. rewrite authenticate_against_run, Hnet, H401. discriminate.
Qed.

(** Whatever the world, a check either returns success with the same user
    info or never does. *)
Lemma check_succeeds_or_fails (server : MediaServer.t) :
  (exists user_info, succeeds server user_info) \/ fails server.
Proof.
  unfold check_succeeds, check_fails.
  destruct (requests_post (auth_url_of (MediaServer.url server))
              (payload_of username password) headers) as [r | e] eqn:Hnet.
  - destruct (Z.eqb (status_code r) 200) eqn:H200.
    + destruct (user_data ← json r; build_user_info user_data) as [info | e] eqn:Hbody.
      * left. exists info. intros w.
        rewrite authenticate_against_run, Hnet, H200, Hbody. reflexivity.
      * right. intros w info.
        rewrite authenticate_against_run, Hnet, H200, Hbody. discriminate.
    + right. intros w info. rewrite authenticate_against_run, Hnet, H200.
      destruct (Z.eqb (status_code r) 401); discriminate.
  - right. intros w info. rewrite authenticate_against_run, Hnet. discriminate.
Qed.

(** The user info of a successful check is the dictionary built from the
    body of the answer; its first key is ["id"]. *)
Lemma build_user_info_shape (user_data user_info : Py.json) :
  build_user_info user_data = Ok user_info ->
  exists id rest, user_info = JDict (("id", id) :: rest).
Proof.
  unfold build_user_info, mbind, result_bind, mret, result_ret.
  repeat match goal with
         | |- context [match ?x with Ok _ => _ | Raise _ => _ end] =>
             destruct x; try discriminate
         end.
  intros H. inversion H. eauto.
Qed.

Lemma succeeds_shape (server : MediaServer.t) (user_info : Py.json) :
  succeeds server user_info ->
  exists id rest, user_info = JDict (("id", id) :: rest).
Proof.
  intros Hs. specialize (Hs (mkWorld (mkSession (mkTables [] [] [] [] ∅)
                                        (mkTables [] [] [] [] ∅)) [] [])).
  rewrite authenticate_against_run in Hs.
  destruct (requests_post _ _ _) as [r | e]; [| discriminate].
  destruct (Z.eqb (status_code r) 200).
  - destruct (json r) as [user_data | e]; simpl in Hs; [| discriminate].
    destruct (build_user_info user_data) as [info | e] eqn:Hb; [| discriminate].
    inversion Hs; subst. exact (build_user_info_shape _ Hb).
  - destruct (Z.eqb (status_code r) 401); discriminate.
Qed.

(** A scan that returns success names a server whose check succeeded,
    after servers whose checks all failed. *)
Lemma scan_success_inv (l : list MediaServer.t) (w : World)
  (server_name : option string) (user_info : option Py.json) :
  fst (scan l username password w) = Ok (true, server_name, user_info) ->
  exists pre server post info,
    l = pre ++ server :: post /\ Forall fails pre /\ succeeds server info
    /\ server_name = Some (MediaServer.name server) /\ user_info = Some info.
Proof.
  revert w. induction l as [| x l IH]; intros w H.
  - discriminate.
  - destruct (check_succeeds_or_fails x) as [[info Hs] | Hf].
    + rewrite (scan_success l w Hs) in H. inversion H; subst.
      exists [], x, l, info. repeat split; auto.
    + destruct (scan_failure l w Hf) as (w' & Heq & _). rewrite Heq in H.
      destruct (IH w' H) as (pre & server & post & info & -> & Hpre & Hs & Hn & Hi).
      exists (x :: pre), server, post, info. repeat split; auto.
Qed.

(** The scan, and so the whole function, touches the log only. *)
Lemma scan_db (l : list MediaServer.t) (w : World) :
  db (snd (scan l username password w)) = db w.
Proof.
  revert w. induction l as [| x l IH]; intros w.
  - reflexivity.
  - destruct (check_succeeds_or_fails x) as [[info Hs] | Hf].
    + rewrite (scan_success l w Hs). simpl.
      rewrite authenticate_against_run.
      destruct (requests_post _ _ _) as [r | e]; [| reflexivity].
      destruct (Z.eqb (status_code r) 200).
      * destruct (_ ← json r; build_user_info _); reflexivity.
      * destruct (Z.eqb (status_code r) 401); reflexivity.
    + destruct (scan_failure l w Hf) as (w' & -> & Hdb). rewrite IH. exact Hdb.
Qed.

Lemma authenticate_db (w : World) :
  db (snd (authenticate_jellyfin_user requests_post username password w)) = db w.
Proof.
  unfold authenticate_jellyfin_user, mbind, M_bind, get_db.
  destruct (jellyfin_servers_of (db w)) as [| x l] eqn:E; [reflexivity |].
  apply scan_db.
Qed.

(** C3. [authenticate_jellyfin_user] goes through the rows of the server
    table whose type is jellyfin, in table order; rows of another type are
    not asked.  (1) When the server table is [pre], then a server of type
    jellyfin, then [post], the check of every server of type jellyfin in
    [pre] fails and the check of that server succeeds with [user_info], the
    result is success with that server's name and [user_info], whatever
    servers are in [post] and whatever a server of another type in [pre]
    would answer.  (2) A server answering 200 with a body the code can read
    succeeds, with the user info built from that body.  (3) A server whose
    request raises a network error fails; the error and a warning naming
    the server are logged and the scan goes on with the next server.  (4) A
    server answering 401 fails, and the scan goes on with the next server.
    (5) When the check of every server of type jellyfin in the table fails,
    and so when there is no such server, the result is failure with no
    server name and no user info. *)
Theorem scan_stops_at_first_success :
  (forall w pre server post user_info,
      servers (live (db w)) = pre ++ server :: post ->
      MediaServer.server_type server = "jellyfin" ->
      Forall (fun m => MediaServer.server_type m = "jellyfin" -> fails m) pre ->
      succeeds server user_info ->
      fst (authenticate_jellyfin_user requests_post username password w)
      = Ok (true, Some (MediaServer.name server), Some user_info))
  /\ (forall server r user_data user_info,
         requests_post (auth_url_of (MediaServer.url server))
           (payload_of username password) headers = Responded r ->
         status_code r = 200 ->
         json r = Ok user_data ->
         build_user_info user_data = Ok user_info ->
         succeeds server user_info)
  /\ (forall server rest w msg,
         requests_post (auth_url_of (MediaServer.url server))
           (payload_of username password) headers = Failed (RequestException msg) ->
         fails server
         /\ scan (server :: rest) username password w
            = scan rest username password
                (logged WARNING
                   ("Failed to authenticate against " +:+ MediaServer.name server
                    +:+ ": " +:+ msg)
                   (logged ERROR
                      ("Network error during Jellyfin authentication: " +:+ msg) w)))
  /\ (forall server rest w r,
         requests_post (auth_url_of (MediaServer.url server))
           (payload_of username password) headers = Responded r ->
         status_code r = 401 ->
         fails server
         /\ scan (server :: rest) username password w
            = scan rest username password
                (logged DEBUG
                   ("Invalid credentials for user '" +:+ username
                    +:+ "' on Jellyfin server") w))
  /\ (forall w,
         Forall (fun m => MediaServer.server_type m = "jellyfin" -> fails m)
           (servers (live (db w))) ->
         fst (authenticate_jellyfin_user requests_post username password w)
         = Ok (false, None, None)).
Proof.
  split; [| split; [| split; [| split]]].
  - intros w pre server post info Htable Htype Hpre Hs.
    rewrite authenticate_is_scan.
    rewrite (@jellyfin_servers_of_split (db w) pre post server Htable Htype).
    apply scan_first_success; [| exact Hs].
    apply forall_of_type_jellyfin. exact Hpre.
  - intros server r user_data info Hnet H200 Hjson Hinfo w.
    rewrite authenticate_against_run, Hnet, H200, Hjson. simpl.
    rewrite Hinfo. reflexivity.
  - intros server rest w msg Hnet. split.
    + exact (network_error_fails server Hnet).
    + simpl. unfold try_except, mbind, M_bind.
      rewrite authenticate_against_run, Hnet. reflexivity.
  - intros server rest w r Hnet H401. split.
    + exact (rejection_fails server Hnet H401).
    + simpl. unfold try_except, mbind, M_bind.
      rewrite authenticate_against_run, Hnet, H401. reflexivity.
  - intros w Hall. rewrite authenticate_is_scan. apply scan_all_fail.
    unfold jellyfin_servers_of. apply forall_of_type_jellyfin. exact Hall.
Qed.

End Scan.

(** The cases of tests/test_jellyfin_auth.py. *)
Example test_jellyfin_authentication_success :
  authenticate_jellyfin_user Sample.accepting "testuser" "testpass" Sample.test_world
  = (Ok (true, Some "Test Jellyfin", Some Sample.success_info),
     logged INFO "Successfully authenticated user 'testuser' against Jellyfin server"
       Sample.test_world).
Proof. vm_compute. reflexivity. Qed.

Example test_jellyfin_authentication_invalid_credentials :
  authenticate_jellyfin_user Sample.rejecting "testuser" "wrongpass" Sample.test_world
  = (Ok (false, None, None),
     logged DEBUG "Invalid credentials for user 'testuser' on Jellyfin server"
       Sample.test_world).
Proof. vm_compute. reflexivity. Qed.

Example test_no_jellyfin_servers_configured :
  authenticate_jellyfin_user Sample.accepting "testuser" "testpass" Sample.empty_world
  = (Ok (false, None, None),
     logged WARNING "No Jellyfin servers configured for authentication" Sample.empty_world).
Proof. vm_compute. reflexivity. Qed.

Example test_create_guest_account_from_jellyfin :
  fst (create_guest_account_from_jellyfin Sample.hash "testuser" "Test Jellyfin"
         (JDict [("id", JStr "test-user-id"); ("name", JStr "testuser");
                 ("server_id", JStr "test-server-id")])
         "random-token" Sample.empty_world)
  = Ok (AdminAccount.mk "testuser" "guest" (Some "hash of random-token")
          (Some "Test Jellyfin") (JStr "test-user-id")).
Proof. vm_compute. reflexivity. Qed.

(** One check at a time: the first server cannot be reached, the third
    accepts. *)
Example first_server_fails :
  check_fails Sample.network "testuser" "testpass" Sample.first_server.
Proof. intros w info. vm_compute. discriminate. Qed.

Example third_server_succeeds :
  check_succeeds Sample.network "testuser" "testpass" Sample.third_server
    Sample.success_info.
Proof. intros w. vm_compute. reflexivity. Qed.

(** A login that every server rejects falls through, and creates nothing. *)
Example rejected_login_falls_through :
  fst (delegated_login Sample.rejecting Sample.hash "testuser" "wrongpass" "random-token"
         Sample.test_world) = Ok None
  /\ db (snd (delegated_login Sample.rejecting Sample.hash "testuser" "wrongpass"
                "random-token" Sample.test_world)) = db Sample.test_world.
Proof. split; vm_compute; reflexivity. Qed.

(** The log of a scan over three servers, two of them unreachable. *)
Example three_servers_log :
  log (snd (authenticate_jellyfin_user Sample.network "testuser" "testpass"
              Sample.three_servers))
  = [(ERROR, "Network error during Jellyfin authentication: connection refused");
     (WARNING, "Failed to authenticate against First: connection refused");
     (ERROR, "Network error during Jellyfin authentication: timed out");
     (WARNING, "Failed to authenticate against Second: timed out");
     (INFO, "Successfully authenticated user 'testuser' against Jellyfin server")].
Proof. vm_compute. reflexivity. Qed.

(** Four rows: two servers of type jellyfin that cannot be reached, a Plex
    server between them that would accept the credentials if it were asked,
    and a third server of type jellyfin that accepts them: the result is
    success in the name of the third. *)
Lemma scan_stops_at_first_success_witness :
  fst (authenticate_jellyfin_user Cases.plex_answers "testuser" "testpass"
         Sample.three_servers)
  = Ok (true, Some "Third", Some Sample.success_info).
Proof.
  refine (proj1 (scan_stops_at_first_success Cases.plex_answers "testuser" "testpass")
            Sample.three_servers
            [Sample.first_server; Sample.plex_server; Sample.second_server]
            Sample.third_server [] Sample.success_info eq_refl eq_refl _ _).
  - repeat constructor.
    + intros _ w info. vm_compute. discriminate.
    + intros Htype. vm_compute in Htype. discriminate Htype.
    + intros _ w info. vm_compute. discriminate.
  - intros w. vm_compute. reflexivity.
Defined.

Section Provisioning.

Variable requests_post : string -> Py.json -> Py.json -> post_outcome.
Variable generate_password_hash : string -> string.

#[local] Abbreviation create := (create_guest_account_from_jellyfin generate_password_hash).
#[local] Abbreviation login := (delegated_login requests_post generate_password_hash).

(** Creating an account from a user-info dictionary: the row is added and
    committed, and an INFO record is logged. *)
Lemma create_guest_account_run (username server_name token : string)
  (items : list (string * Py.json)) (w : World) :
  let account :=
    AdminAccount.mk username "guest" (Some (generate_password_hash token))
      (Some server_name)
      (match items_get items "id" with Some v => v | None => JNull end) in
  exists w',
    create username server_name (JDict items) token w = (Ok account, w')
    /\ accounts (live (db w')) = accounts (live (db w)) ++ [account]
    /\ stored (db w') = live (db w').
Proof.
  intros account. subst account. eexists. split.
  - cbv [create_guest_account_from_jellyfin mbind M_bind lift dict_get add_account
         commit logging set_password mret M_ret]. reflexivity.
  - split; reflexivity.
Qed.

(** A successful authentication hands over a dictionary with an ["id"]
    key, and leaves the session alone. *)
Lemma authenticate_success_shape (username password : string) (w : World)
  (server_name : option string) (user_info : option Py.json) :
  fst (authenticate_jellyfin_user requests_post username password w)
  = Ok (true, server_name, user_info) ->
  exists name id rest,
    server_name = Some name /\ user_info = Some (JDict (("id", id) :: rest)).
Proof.
  rewrite authenticate_is_scan. intros H.
  apply scan_success_inv in H.
  destruct H as (pre & server & post & info & _ & _ & Hs & -> & ->).
  destruct (succeeds_shape Hs) as (id & rest & ->).
  eauto.
Qed.

(** The login path when the account exists: it is handed back and the
    session is not touched. *)
Lemma login_reuses (username password token server_name : string)
  (user_info : Py.json) (account : AdminAccount.t) (w : World) :
  fst (authenticate_jellyfin_user requests_post username password w)
  = Ok (true, Some server_name, Some user_info) ->
  account_by_username username (db w) = Some account ->
  exists w', login username password token w = (Ok (Some account), w')
             /\ db w' = db w.
Proof.
  intros Hauth Hfind.
  pose proof (authenticate_db requests_post username password w) as Hdb.
  unfold delegated_login, mbind at 1, M_bind at 1.
  destruct (authenticate_jellyfin_user requests_post username password w)
    as [r w0]; simpl in Hauth, Hdb; subst r.
  unfold provision_account, mbind, M_bind, get_db.
  rewrite Hdb, Hfind. eexists. split; [reflexivity | exact Hdb].
Qed.



End Provisioning.



End JellyfinAuthFacts.

(** ** The media-client base class (app/services/media/client_base.py) *)

Module ClientBaseFacts.

Import ClientBase.

(** The filters of the queries, read on the columns of a row, and
    [first()] read on the table: the first row, in table order, whose
    columns have the values asked for. *)
Lemma has_code_iff (code : string) (u : User.t) :
  has_code code u = true <-> User.code u = Some code.
Proof.
  unfold has_code. destruct (User.code u) as [c |].
  - rewrite String.eqb_eq. split; [intros -> | intros H; inversion H]; reflexivity.
  - split; discriminate.
Qed.

Lemma has_code_false_iff (code : string) (u : User.t) :
  has_code code u = false <-> User.code u <> Some code.
Proof.
  rewrite <- has_code_iff. destruct (has_code code u); split; congruence.
Qed.

Lemma has_email_iff (email : string) (u : User.t) :
  has_email email u = true <-> User.email u = Some email.
Proof.
  unfold has_email. destruct (User.email u) as [e |].
  - rewrite String.eqb_eq. split; [intros -> | intros H; inversion H]; reflexivity.
  - split; discriminate.
Qed.

Lemma has_email_false_iff (email : string) (u : User.t) :
  has_email email u = false <-> User.email u <> Some email.
Proof.
  rewrite <- has_email_iff. destruct (has_email email u); split; congruence.
Qed.

Lemma invitation_by_code_first (code : string) (s : Session)
  (pre post : list Invitation.t) (invitation : Invitation.t) :
  invitations (live s) = pre ++ invitation :: post ->
  Forall (fun i => Invitation.code i <> code) pre ->
  Invitation.code invitation = code ->
  invitation_by_code code s = Some invitation.
Proof.
  intros Htable Hpre Hcode. unfold invitation_by_code. rewrite Htable.
  apply find_first.
  - eapply List.Forall_impl; [| exact Hpre].
    intros i Hi. apply String.eqb_neq. exact Hi.
  - apply String.eqb_eq. exact Hcode.
Qed.

Lemma invitation_by_code_in (code : string) (s : Session) (invitation : Invitation.t) :
  invitation_by_code code s = Some invitation ->
  In invitation (invitations (live s)) /\ Invitation.code invitation = code.
Proof.
  intros H. apply List.find_some in H. destruct H as [Hin Hc].
  split; [exact Hin | apply String.eqb_eq; exact Hc].
Qed.

Lemma user_by_code_first (code : string) (s : Session)
  (pre post : list User.t) (existing : User.t) :
  users (live s) = pre ++ existing :: post ->
  Forall (fun u => User.code u <> Some code) pre ->
  User.code existing = Some code ->
  user_by_code code s = Some existing.
Proof.
  intros Htable Hpre Hcode. unfold user_by_code. rewrite Htable.
  apply find_first.
  - eapply List.Forall_impl; [| exact Hpre].
    intros u Hu. apply has_code_false_iff. exact Hu.
  - apply has_code_iff. exact Hcode.
Qed.

Lemma user_by_code_none (code : string) (s : Session) :
  Forall (fun u => User.code u <> Some code) (users (live s)) ->
  user_by_code code s = None.
Proof.
  intros Hall. apply find_none_forall. intros u Hin.
  apply has_code_false_iff. rewrite List.Forall_forall in Hall. exact (Hall u Hin).
Qed.

Lemma user_by_code_email_first (code email : string) (s : Session)
  (pre post : list User.t) (existing : User.t) :
  users (live s) = pre ++ existing :: post ->
  Forall (fun u => ~ (User.code u = Some code /\ User.email u = Some email)) pre ->
  User.code existing = Some code ->
  User.email existing = Some email ->
  user_by_code_email code email s = Some existing.
Proof.
  intros Htable Hpre Hcode Hemail. unfold user_by_code_email. rewrite Htable.
  apply find_first.
  - eapply List.Forall_impl; [| exact Hpre].
    intros u Hu. simpl in Hu. apply andb_false_iff.
    destruct (has_code code u) eqn:Hc; [| left; reflexivity].
    right. apply has_email_false_iff. intros He. apply Hu.
    split; [apply has_code_iff; exact Hc | exact He].
  - apply andb_true_iff. split; [apply has_code_iff | apply has_email_iff]; assumption.
Qed.

Lemma user_by_code_email_none (code email : string) (s : Session) :
  (forall u, In u (users (live s)) ->
             User.code u = Some code -> User.email u <> Some email) ->
  user_by_code_email code email s = None.
Proof.
  intros Hnone. apply find_none_forall. intros u Hin.
  apply andb_false_iff.
  destruct (has_code code u) eqn:Hc; [| left; reflexivity].
  right. apply has_email_false_iff. apply (Hnone u Hin). apply has_code_iff. exact Hc.
Qed.

Lemma user_by_code_email_in (code email : string) (s : Session) (existing : User.t) :
  user_by_code_email code email s = Some existing ->
  In existing (users (live s))
  /\ User.code existing = Some code /\ User.email existing = Some email.
Proof.
  intros H. apply List.find_some in H. destruct H as [Hin Hboth].
  apply andb_prop in Hboth. destruct Hboth as [Hc He].
  split; [exact Hin |].
  split; [apply has_code_iff; exact Hc | apply has_email_iff; exact He].
Qed.

Lemma user_by_code_in (code : string) (s : Session) (existing : User.t) :
  user_by_code code s = Some existing ->
  In existing (users (live s)) /\ User.code existing = Some code.
Proof.
  intros H. apply List.find_some in H. destruct H as [Hin Hc].
  split; [exact Hin | apply has_code_iff; exact Hc].
Qed.

Section IdentityLinking.

Variable EMAIL_RE_fullmatch : string -> bool.
Variable cleanup_expired_user_by_email : string -> World -> World.

#[local] Abbreviation link := (link_identity EMAIL_RE_fullmatch).
#[local] Abbreviation purge := (cleanup cleanup_expired_user_by_email).
#[local] Abbreviation create :=
  (_create_user_with_identity_linking EMAIL_RE_fullmatch cleanup_expired_user_by_email).

(** The function always returns: the new user is the linked keyword
    arguments, and the world is the one the expiry service left, with the
    new user added to the session. *)
Lemma create_run (user_kwargs : User.t) (w : World) :
  create user_kwargs w =
  (Ok (link user_kwargs (db w)),
   snd (add_user (link user_kwargs (db w)) (snd (purge (User.email user_kwargs) w)))).
Proof.
  unfold _create_user_with_identity_linking, mbind, M_bind, get_db, cleanup.
  destruct (nonempty (User.email user_kwargs)); reflexivity.
Qed.

(** Linking changes the identity group of the keyword arguments and nothing
    else. *)
Lemma adopt_identity_frame (existing : option User.t) (user_kwargs : User.t) :
  set_identity_id user_kwargs (User.identity_id (adopt_identity existing user_kwargs))
  = adopt_identity existing user_kwargs.
Proof.
  destruct user_kwargs. unfold adopt_identity.
  destruct existing as [u |]; [| reflexivity].
  destruct (truthy_int (User.identity_id u)); reflexivity.
Qed.

Lemma link_identity_frame (user_kwargs : User.t) (s : Session) :
  set_identity_id user_kwargs (User.identity_id (link user_kwargs s)) = link user_kwargs s.
Proof.
  unfold link_identity.
  assert (Hid : set_identity_id user_kwargs (User.identity_id user_kwargs) = user_kwargs)
    by (destruct user_kwargs; reflexivity).
  destruct (nonempty (User.code user_kwargs)) as [code |]; [| exact Hid].
  destruct (invitation_by_code code s) as [invitation |]; [| exact Hid].
  destruct (negb (truthy_bool (Invitation.unlimited invitation))).
  - apply adopt_identity_frame.
  - destruct (nonempty (User.email user_kwargs)) as [email |]; [| exact Hid].
    destruct (EMAIL_RE_fullmatch email); [apply adopt_identity_frame | exact Hid].
Qed.

(** Adopting from a user that has an identity group. *)
Lemma adopt_identity_some (existing user_kwargs : User.t) (g : Z) :
  User.identity_id existing = Some g -> g <> 0 ->
  User.identity_id (adopt_identity (Some existing) user_kwargs) = Some g.
Proof.
  intros Hg Hnz. unfold adopt_identity. rewrite Hg. simpl.
  destruct (Z.eqb_spec g 0) as [-> | _]; [contradiction | reflexivity].
Qed.

Lemma link_limited (user_kwargs : User.t) (s : Session) (code : string)
  (invitation : Invitation.t) :
  nonempty (User.code user_kwargs) = Some code ->
  invitation_by_code code s = Some invitation ->
  truthy_bool (Invitation.unlimited invitation) = false ->
  link user_kwargs s = adopt_identity (user_by_code code s) user_kwargs.
Proof.
  intros Hcode Hinv Hlim. unfold link_identity. rewrite Hcode, Hinv, Hlim. reflexivity.
Qed.

Lemma link_unlimited (user_kwargs : User.t) (s : Session) (code : string)
  (invitation : Invitation.t) :
  nonempty (User.code user_kwargs) = Some code ->
  invitation_by_code code s = Some invitation ->
  truthy_bool (Invitation.unlimited invitation) = true ->
  link user_kwargs s =
  match nonempty (User.email user_kwargs) with
  | Some email =>
      if EMAIL_RE_fullmatch email
      then adopt_identity (user_by_code_email code email s) user_kwargs
      else user_kwargs
  | None => user_kwargs
  end.
Proof.
  intros Hcode Hinv Hunl. unfold link_identity. rewrite Hcode, Hinv, Hunl. reflexivity.
Qed.

(** The row of a redemption carries the code of its keyword arguments,
    and is the row a later lookup by this code finds when no earlier row
    carries the code. *)
Lemma link_has_code (user_kwargs : User.t) (s : Session) (code : string) :
  nonempty (User.code user_kwargs) = Some code ->
  has_code code (link user_kwargs s) = true.
Proof.
  intros Hcode. rewrite <- link_identity_frame.
  unfold has_code, set_identity_id. simpl.
  unfold nonempty in Hcode. destruct (User.code user_kwargs) as [c |]; [| discriminate].
  destruct (String.eqb c ""); [discriminate |]. inversion Hcode; subst.
  apply String.eqb_refl.
Qed.

Lemma first_redemption_is_found (user_kwargs : User.t) (w : World) (code : string) :
  nonempty (User.code user_kwargs) = Some code ->
  user_by_code code (db (snd (purge (User.email user_kwargs) w))) = None ->
  user_by_code code (db (snd (create user_kwargs w))) = Some (link user_kwargs (db w)).
Proof.
  intros Hcode Hnone. rewrite create_run. simpl.
  unfold user_by_code in *. simpl.
  apply find_app_none; [exact Hnone | apply link_has_code; exact Hcode].
Qed.

(** C1.  (1) When the keyword arguments carry a code, the first invitation
    of the invitation table whose code is this code is not unlimited, and
    the first row of the user table whose code is this code has identity
    group [g], the new user gets identity group [g]; nothing is asked of the
    email of either.  (2) In particular, when a first redemption of a
    limited code (no row of the user table carried the code before it)
    produced a row with identity group [g], a second redemption with the
    same code, whatever its email, produces a row with identity group
    [g]. *)
Theorem limited_invitation_links_by_code :
  (forall user_kwargs w code invitation ipre ipost existing upre upost g,
      nonempty (User.code user_kwargs) = Some code ->
      invitations (live (db w)) = ipre ++ invitation :: ipost ->
      Forall (fun i => Invitation.code i <> code) ipre ->
      Invitation.code invitation = code ->
      truthy_bool (Invitation.unlimited invitation) = false ->
      users (live (db w)) = upre ++ existing :: upost ->
      Forall (fun u => User.code u <> Some code) upre ->
      User.code existing = Some code ->
      User.identity_id existing = Some g ->
      g <> 0 ->
      exists new_user w',
        create user_kwargs w = (Ok new_user, w')
        /\ User.identity_id new_user = Some g
        /\ new_user = set_identity_id user_kwargs (Some g))
  /\ (forall first second w code invitation ipre ipost g first_user w1,
         create first w = (Ok first_user, w1) ->
         nonempty (User.code first) = Some code ->
         Forall (fun u => User.code u <> Some code)
           (users (live (db (snd (purge (User.email first) w))))) ->
         User.identity_id first_user = Some g ->
         g <> 0 ->
         nonempty (User.code second) = Some code ->
         invitations (live (db w1)) = ipre ++ invitation :: ipost ->
         Forall (fun i => Invitation.code i <> code) ipre ->
         Invitation.code invitation = code ->
         truthy_bool (Invitation.unlimited invitation) = false ->
         exists second_user w2,
           create second w1 = (Ok second_user, w2)
           /\ User.identity_id second_user = Some g).
Proof.
  assert (Hrule : forall user_kwargs w code invitation existing g,
             nonempty (User.code user_kwargs) = Some code ->
             invitation_by_code code (db w) = Some invitation ->
             truthy_bool (Invitation.unlimited invitation) = false ->
             user_by_code code (db w) = Some existing ->
             User.identity_id existing = Some g ->
             g <> 0 ->
             User.identity_id (link user_kwargs (db w)) = Some g).
  { intros kw w code invitation existing g Hcode Hinv Hlim Hex Hg Hnz.
    rewrite (@link_limited kw (db w) code invitation Hcode Hinv Hlim), Hex.
    apply adopt_identity_some; assumption. }
  split.
  - intros kw w code invitation ipre ipost existing upre upost g
      Hcode Hitable Hipre Hicode Hlim Hutable Hupre Hucode Hg Hnz.
    pose proof (@invitation_by_code_first code (db w) ipre ipost invitation
                  Hitable Hipre Hicode) as Hinv.
    pose proof (@user_by_code_first code (db w) upre upost existing
                  Hutable Hupre Hucode) as Hex.
    eexists. eexists. split; [apply create_run |].
    pose proof (Hrule kw w code invitation existing g Hcode Hinv Hlim Hex Hg Hnz) as Hid.
    split; [exact Hid |]. rewrite <- Hid. symmetry. apply link_identity_frame.
  - intros kw1 kw2 w code invitation ipre ipost g first_user w1
      Hrun Hcode1 Hfresh Hg Hnz Hcode2 Hitable Hipre Hicode Hlim.
    pose proof (@invitation_by_code_first code (db w1) ipre ipost invitation
                  Hitable Hipre Hicode) as Hinv.
    pose proof (@user_by_code_none code _ Hfresh) as Hfirst.
    pose proof (@first_redemption_is_found kw1 w code Hcode1 Hfirst) as Hfound.
    rewrite Hrun in Hfound. simpl in Hfound.
    assert (Hu1 : link kw1 (db w) = first_user)
      by (rewrite create_run in Hrun; congruence).
    rewrite Hu1 in Hfound.
    eexists. eexists. split; [apply create_run |].
    exact (Hrule kw2 w1 code invitation first_user g Hcode2 Hinv Hlim Hfound Hg Hnz).
Qed.

(** C2.  When the keyword arguments carry a code and the first invitation
    of the invitation table whose code is this code is unlimited: (1) the
    new user has another identity group than the keyword arguments gave only
    if the email is present and matches [EMAIL_RE], and a row of the user
    table whose code is this code and whose email is this email has that
    identity group; (2) with no email, or one that does not match
    [EMAIL_RE], the new user is the keyword arguments unchanged; (3) so it
    is when no row of the user table with this code has this email; (4)
    when the email matches and the first row of the user table whose code
    is this code and whose email is this email has identity group [g], the
    new user gets [g]. *)
Theorem unlimited_invitation_links_by_code_and_email
  (user_kwargs : User.t) (w : World) (code : string) (invitation : Invitation.t)
  (ipre ipost : list Invitation.t) :
  nonempty (User.code user_kwargs) = Some code ->
  invitations (live (db w)) = ipre ++ invitation :: ipost ->
  Forall (fun i => Invitation.code i <> code) ipre ->
  Invitation.code invitation = code ->
  truthy_bool (Invitation.unlimited invitation) = true ->
  exists new_user w',
    create user_kwargs w = (Ok new_user, w')
    /\ (User.identity_id new_user <> User.identity_id user_kwargs ->
        exists email existing,
          nonempty (User.email user_kwargs) = Some email
          /\ EMAIL_RE_fullmatch email = true
          /\ In existing (users (live (db w)))
          /\ User.code existing = Some code
          /\ User.email existing = Some email
          /\ truthy_int (User.identity_id existing) = true
          /\ User.identity_id new_user = User.identity_id existing)
    /\ ((forall email, nonempty (User.email user_kwargs) = Some email ->
                       EMAIL_RE_fullmatch email = false) ->
        new_user = user_kwargs)
    /\ (forall email,
          nonempty (User.email user_kwargs) = Some email ->
          (forall u, In u (users (live (db w))) ->
                     User.code u = Some code -> User.email u <> Some email) ->
          new_user = user_kwargs)
    /\ (forall email existing upre upost g,
          nonempty (User.email user_kwargs) = Some email ->
          EMAIL_RE_fullmatch email = true ->
          users (live (db w)) = upre ++ existing :: upost ->
          Forall (fun u => ~ (User.code u = Some code /\ User.email u = Some email)) upre ->
          User.code existing = Some code ->
          User.email existing = Some email ->
          User.identity_id existing = Some g ->
          g <> 0 ->
          User.identity_id new_user = Some g).
Proof.
  intros Hcode Hitable Hipre Hicode Hunl.
  pose proof (@invitation_by_code_first code (db w) ipre ipost invitation
                Hitable Hipre Hicode) as Hinv.
  eexists. eexists. split; [apply create_run |].
  rewrite (@link_unlimited user_kwargs (db w) code invitation Hcode Hinv Hunl).
  split; [| split; [| split]].
  - intros Hdiff.
    destruct (nonempty (User.email user_kwargs)) as [email |]; [| contradiction].
    destruct (EMAIL_RE_fullmatch email) eqn:Hre; [| contradiction].
    unfold adopt_identity in *.
    destruct (user_by_code_email code email (db w)) as [existing |] eqn:Hex;
      [| contradiction].
    destruct (truthy_int (User.identity_id existing)) eqn:Htruthy; [| contradiction].
    apply user_by_code_email_in in Hex. destruct Hex as [Hin [Hc He]].
    exists email, existing. repeat split; auto.
  - intros Hbad.
    destruct (nonempty (User.email user_kwargs)) as [email |]; [| reflexivity].
    rewrite (Hbad email eq_refl). reflexivity.
  - intros email Hemail Hnone. rewrite Hemail.
    destruct (EMAIL_RE_fullmatch email); [| reflexivity].
    rewrite (@user_by_code_email_none code email (db w) Hnone). reflexivity.
  - intros email existing upre upost g Hemail Hre Hutable Hupre Hucode Huemail Hg Hnz.
    rewrite Hemail, Hre.
    rewrite (@user_by_code_email_first code email (db w) upre upost existing
               Hutable Hupre Hucode Huemail).
    apply adopt_identity_some; assumption.
Qed.


End IdentityLinking.

(** A limited code redeemed twice, with two emails, in a world whose first
    invitation and first user row carry another code: the second row gets
    the identity group 5 of the first redemption, not the group 7 of the
    row with the other code. *)
Lemma limited_invitation_links_by_code_witness :
  exists second_user w2,
    _create_user_with_identity_linking Sample.email_like Sample.nothing_to_purge
      (Sample.redeem "carol-on-plex" "other@y.org" "LIMITED1" None)
      (snd (_create_user_with_identity_linking Sample.email_like Sample.nothing_to_purge
              (Sample.redeem "carol" "c@x.com" "LIMITED1" (Some 5)) Cases.open_first))
    = (Ok second_user, w2)
    /\ User.identity_id second_user = Some 5.
Proof.
  refine (proj2 (limited_invitation_links_by_code Sample.email_like Sample.nothing_to_purge)
            (Sample.redeem "carol" "c@x.com" "LIMITED1" (Some 5))
            (Sample.redeem "carol-on-plex" "other@y.org" "LIMITED1" None)
            Cases.open_first "LIMITED1" Sample.limited_invitation
            [Sample.open_invitation] [] 5
            (Sample.redeem "carol" "c@x.com" "LIMITED1" (Some 5)) _
            eq_refl eq_refl _ eq_refl _ eq_refl eq_refl _ eq_refl eq_refl).
  - repeat constructor. discriminate.
  - lia.
  - repeat constructor. discriminate.
Defined.

(** An unlimited code, the second invitation of the table: another email
    gets no group, the first email gets the first group again. *)
Lemma unlimited_invitation_links_by_code_and_email_witness :
  let w1 := Sample.redeemed Sample.alice Sample.invited in
  let w2 := Sample.redeemed Sample.bob w1 in
  fst (_create_user_with_identity_linking Sample.email_like Sample.nothing_to_purge
         Sample.bob w1) = Ok Sample.bob
  /\ exists third,
      fst (_create_user_with_identity_linking Sample.email_like Sample.nothing_to_purge
             Sample.alice_again w2) = Ok third
      /\ User.identity_id third = Some 7.
Proof.
  assert (Hipre : Forall (fun i => Invitation.code i <> "OPEN0001")
                    [Sample.limited_invitation])
    by (repeat constructor; discriminate).
  intros w1 w2. split.
  - destruct (@unlimited_invitation_links_by_code_and_email
                Sample.email_like Sample.nothing_to_purge
                Sample.bob w1 "OPEN0001" Sample.open_invitation
                [Sample.limited_invitation] [] eq_refl eq_refl Hipre eq_refl eq_refl)
      as (second & w' & Hrun & _ & _ & Hother & _).
    rewrite Hrun. simpl. f_equal.
    apply (Hother "b@x.com" eq_refl).
    intros u [<- | []] _. discriminate.
  - destruct (@unlimited_invitation_links_by_code_and_email
                Sample.email_like Sample.nothing_to_purge
                Sample.alice_again w2 "OPEN0001" Sample.open_invitation
                [Sample.limited_invitation] [] eq_refl eq_refl Hipre eq_refl eq_refl)
      as (third & w' & Hrun & _ & _ & _ & Hsame).
    exists third. rewrite Hrun. split; [reflexivity |].
    apply (Hsame "a@x.com" Sample.alice [] [Sample.bob] 7
             eq_refl eq_refl eq_refl (List.Forall_nil _) eq_refl eq_refl eq_refl). lia.
Defined.


(** Keyword arguments without a code, or with a code no invitation has,
    are not linked; the row is added all the same. *)
Example no_code_no_linking :
  _create_user_with_identity_linking Sample.email_like Sample.nothing_to_purge
    (User.mk (Some "dave") (Some "a@x.com") None None None None)
    (Sample.redeemed Sample.alice Sample.invited)
  = (Ok (User.mk (Some "dave") (Some "a@x.com") None None None None),
     snd (add_user (User.mk (Some "dave") (Some "a@x.com") None None None None)
            (Sample.redeemed Sample.alice Sample.invited))).
Proof. vm_compute. reflexivity. Qed.

Example unknown_code_no_linking :
  fst (_create_user_with_identity_linking Sample.email_like Sample.nothing_to_purge
         (Sample.redeem "erin" "a@x.com" "NOSUCH01" None)
         (Sample.redeemed (Sample.redeem "alice" "a@x.com" "NOSUCH01" (Some 7))
            Sample.invited))
  = Ok (Sample.redeem "erin" "a@x.com" "NOSUCH01" None).
Proof. vm_compute. reflexivity. Qed.

(** The registry keeps one class per tag: the last one registered. *)
Lemma register_last_wins (name : string) (cls1 cls2 : ClientClass)
  (CLIENTS : gmap string ClientClass) :
  snd (register_media_client name cls2 (snd (register_media_client name cls1 CLIENTS)))
    !! name
  = Some (fst (register_media_client name cls2
                 (snd (register_media_client name cls1 CLIENTS)))).
Proof. unfold register_media_client. simpl. apply lookup_insert_eq. Qed.

Lemma register_other_tag (name other : string) (cls : ClientClass)
  (CLIENTS : gmap string ClientClass) :
  name <> other ->
  snd (register_media_client name cls CLIENTS) !! other = CLIENTS !! other.
Proof. intros Hne. unfold register_media_client. simpl. apply lookup_insert_ne. exact Hne. Qed.

Section Statistics.

Variable self : MediaClient.

Lemma statistics_calls_called (method : string) (w : World) :
  String.eqb "statistics" method = false ->
  statistics_calls (called method w) = statistics_calls w.
Proof.
  intros Hne. unfold statistics_calls, called. cbn [calls].
  rewrite List.filter_app. cbn [List.filter]. rewrite Hne, List.app_nil_r. reflexivity.
Qed.

(** The default [get_user_count] and [get_server_info] return whatever
    [statistics] does, and leave the world as [statistics] left it. *)
Lemma default_get_user_count_world (w : World) :
  exists total_users,
    default_get_user_count self w = (Ok total_users, snd (statistics self w)).
Proof.
  unfold default_get_user_count, try_except, mbind, M_bind, lift.
  destruct (statistics self w) as [[stats | e] w1]; simpl; [| eauto].
  destruct (dict_get stats "user_stats" (JDict [])) as [user_stats | e]; [| eauto].
  destruct (dict_get user_stats "total_users" (JInt 0)); eauto.
Qed.

Lemma default_get_server_info_world (w : World) :
  exists server_stats,
    default_get_server_info self w = (Ok server_stats, snd (statistics self w)).
Proof.
  unfold default_get_server_info, try_except, mbind, M_bind, lift.
  destruct (statistics self w) as [[stats | e] w1]; simpl; [| eauto].
  destruct (dict_get stats "server_stats" (JDict [])) as [server_stats | e]; [| eauto].
  destruct (dict_get server_stats "version" (JStr "Unknown")); [| eauto].
  destruct (dict_get server_stats "transcoding_sessions" (JInt 0)); [| eauto].
  destruct (dict_get stats "user_stats" (JDict [])) as [user_stats | e]; [| eauto].
  destruct (dict_get user_stats "active_sessions" (JInt 0)); eauto.
Qed.

(** What [get_readonly_statistics] does, by the two methods it is built
    from: it calls [get_user_count], then [get_server_info], and builds its
    dictionary from what they return.  (1) For a client whose class
    overrides both with bodies that neither call [statistics] nor change the
    session, [get_readonly_statistics] neither calls [statistics] nor
    changes the session.  (2) For a client that inherits both, the world
    after [get_readonly_statistics] is the world after two runs of
    [statistics]. *)
Theorem readonly_statistics_is_as_light_as_its_two_methods :
  (forall count info,
      get_user_count_override (class self) = Some count ->
      get_server_info_override (class self) = Some info ->
      (forall w total_users w1 server_stats w2,
          count (called "get_user_count" w) = (Ok total_users, w1) ->
          info (called "get_server_info" w1) = (Ok server_stats, w2) ->
          get_readonly_statistics self w =
          (Ok (JDict [("user_stats",
                       JDict [("total_users", total_users); ("active_sessions", JInt 0)]);
                      ("server_stats", server_stats);
                      ("library_stats", JDict []);
                      ("content_stats", JDict [])]), w2))
      /\ (read_only count -> read_only info ->
          read_only (get_readonly_statistics self)))
  /\ (get_user_count_override (class self) = None ->
      get_server_info_override (class self) = None ->
      forall w,
        snd (get_readonly_statistics self w)
        = snd (statistics self
                 (called "get_server_info"
                    (snd (statistics self (called "get_user_count" w)))))).
Proof.
  split.
  - intros count info Hcount Hinfo. split.
    + intros w total_users w1 server_stats w2 Hc Hi.
      unfold get_readonly_statistics, get_user_count, get_server_info, invoke,
        mbind, M_bind.
      rewrite Hcount, Hinfo, Hc, Hi. reflexivity.
    + intros Rcount Rinfo w.
      unfold get_readonly_statistics, get_user_count, get_server_info, invoke,
        mbind, M_bind.
      rewrite Hcount, Hinfo.
      destruct (Rcount (called "get_user_count" w)) as [Hdb1 Hcalls1].
      rewrite statistics_calls_called in Hcalls1 by reflexivity.
      destruct (count (called "get_user_count" w)) as [[total_users | e] w1];
        simpl in *; [| split; assumption].
      destruct (Rinfo (called "get_server_info" w1)) as [Hdb2 Hcalls2].
      rewrite statistics_calls_called in Hcalls2 by reflexivity.
      destruct (info (called "get_server_info" w1)) as [[server_stats | e] w2];
        simpl in *; split; congruence.
  - intros Hcount Hinfo w.
    unfold get_readonly_statistics, get_user_count, get_server_info, invoke,
      mbind, M_bind.
    rewrite Hcount, Hinfo.
    destruct (default_get_user_count_world (called "get_user_count" w))
      as [total_users ->].
    destruct (default_get_server_info_world
                (called "get_server_info"
                   (snd (statistics self (called "get_user_count" w)))))
      as [server_stats ->].
    reflexivity.
Qed.

End Statistics.

(** A client with both methods overridden by constants. *)
Lemma readonly_statistics_is_as_light_as_its_two_methods_witness :
  read_only (get_readonly_statistics (new Sample.light_class))
  /\ get_readonly_statistics (new Sample.light_class) Sample.empty_world
     = (Ok (JDict [("user_stats",
                    JDict [("total_users", JInt 3); ("active_sessions", JInt 0)]);
                   ("server_stats", JDict [("version", JStr "10.9.0")]);
                   ("library_stats", JDict []);
                   ("content_stats", JDict [])]),
        called "get_server_info" (called "get_user_count" Sample.empty_world)).
Proof.
  destruct (proj1 (readonly_statistics_is_as_light_as_its_two_methods
                     (new Sample.light_class))
              (mret (JInt 3)) (mret (JDict [("version", JStr "10.9.0")]))
              eq_refl eq_refl) as [Hrun Hro].
  split.
  - apply Hro; intros w; split; reflexivity.
  - exact (Hrun Sample.empty_world (JInt 3) _ _ _ eq_refl eq_refl).
Defined.

(** C6.  The code departs from the claim, which its own docstrings state
    ([get_readonly_statistics]: for health monitoring without database
    writes; [get_user_count] and [get_server_info]: without triggering user
    sync).  For a client whose class inherits [get_user_count] and
    [get_server_info] and whose [statistics] synchronises a user and
    commits, [get_readonly_statistics] calls [statistics] twice, once from
    each of the two methods, and the rows of both synchronisations are in
    the stored user table afterwards: it is not read-only. *)
Lemma readonly_statistics_runs_statistics_by_default :
  let w' := snd (get_readonly_statistics (new Sample.syncing_class) Sample.empty_world) in
  calls w' = ["get_user_count"; "statistics"; "get_server_info"; "statistics"]
  /\ users (stored (db w')) = [Sample.synced_user; Sample.synced_user]
  /\ ~ read_only (get_readonly_statistics (new Sample.syncing_class)).
Proof.
  split; [reflexivity |]. split; [reflexivity |].
  intros H. destruct (H Sample.empty_world) as [_ Hcalls].
  vm_compute in Hcalls. discriminate.
Qed.

Section Configuration.

Variable cls : ClientClass.
Variables url_key token_key : string.
Variable s : Session.

Lemma no_match_no_first (tag : string) :
  Forall (fun m => MediaServer.server_type m <> tag) (servers (live s)) ->
  first_server_of_type tag s = None.
Proof.
  intros Hall. unfold first_server_of_type. apply find_none_forall.
  intros m Hin. rewrite Forall_forall in Hall.
  apply String.eqb_neq. apply Hall. apply list_elem_of_In. exact Hin.
Qed.

(** Without an explicit row and without a matching row, only [url] and
    [token] are assigned, from the legacy settings. *)
Lemma legacy_fallback :
  no_matching_row cls s ->
  __init__ (new cls) None url_key token_key s
  = mkClient cls Unset Unset
      (Bound (settings (live s) !! url_key)) (Bound (settings (live s) !! token_key)).
Proof.
  intros Hnone. unfold __init__, class_server_type, new. simpl.
  destruct (_server_type cls) as [| tag] eqn:Htag; simpl; [reflexivity |].
  destruct (String.eqb tag ""); [reflexivity |].
  rewrite (no_match_no_first (Hnone tag Htag)). reflexivity.
Qed.

(** C8.  (1) A row given to the constructor is adopted: the client gets the
    row, its id, its URL and its API key.  (2) With no row given, a class
    registered under a (non-empty) tag adopts the first row of the server
    table whose server type is the tag.  (3) With no row given and no row
    matching the tag (or no tag), [url] and [token] are read from the
    settings under [url_key] and [token_key], and [server_row] and
    [server_id] stay unbound. *)
Theorem configuration_resolution_order :
  (forall row,
      __init__ (new cls) (Some row) url_key token_key s
      = mkClient cls (Bound row) (Bound (MediaServer.id row))
          (Bound (Some (MediaServer.url row))) (Bound (MediaServer.api_key row)))
  /\ (forall tag pre row post,
         _server_type cls = Bound tag ->
         tag <> "" ->
         servers (live s) = pre ++ row :: post ->
         Forall (fun m => MediaServer.server_type m <> tag) pre ->
         MediaServer.server_type row = tag ->
         __init__ (new cls) None url_key token_key s
         = mkClient cls (Bound row) (Bound (MediaServer.id row))
             (Bound (Some (MediaServer.url row))) (Bound (MediaServer.api_key row)))
  /\ (no_matching_row cls s ->
      __init__ (new cls) None url_key token_key s
      = mkClient cls Unset Unset
          (Bound (settings (live s) !! url_key)) (Bound (settings (live s) !! token_key))).
Proof.
  split; [| split].
  - intros row. reflexivity.
  - intros tag pre row post Htag Hne Hrows Hpre Hrow.
    unfold __init__, class_server_type, first_server_of_type, new.
    cbn [class]. rewrite Htag. cbn [nonempty].
    apply String.eqb_neq in Hne. rewrite Hne, Hrows.
    rewrite find_first; [reflexivity | | rewrite Hrow; apply String.eqb_refl].
    eapply List.Forall_impl; [| exact Hpre]. intros m Hm. apply String.eqb_neq. exact Hm.
  - exact legacy_fallback.
Qed.

Section ImageProxy.

Variable generate_token : string -> Z -> string.
Variable quote_plus : string -> string.

(** C10.  A client constructed with no row given and no row matching the
    tag of its class has neither [server_row] nor [server_id]: reading
    [server_id] raises [AttributeError], and so does
    [generate_image_proxy_url], for every image URL. *)
Theorem legacy_client_has_no_server_id (image_url : string) :
  no_matching_row cls s ->
  let self := __init__ (new cls) None url_key token_key s in
  server_row self = Unset
  /\ server_id self = Unset
  /\ getattr "server_id" (server_id self)
     = Raise (AttributeError "object has no attribute 'server_id'")
  /\ generate_image_proxy_url generate_token quote_plus self image_url
     = Raise (AttributeError "object has no attribute 'server_id'").
Proof.
  intros Hnone self. unfold self. rewrite (legacy_fallback Hnone).
  repeat split; reflexivity.
Qed.

End ImageProxy.

End Configuration.

(** A client given a row produces a proxy URL with that row's id. *)
Example explicit_row_proxy_url :
  generate_image_proxy_url (fun image_url id => pretty id +:+ ":" +:+ image_url) (fun t => t)
    (construct Sample.syncing_class (Some Sample.plex_server) Sample.legacy_session)
    "thumb.jpg"
  = Ok "/image-proxy?token=4:thumb.jpg".
Proof. vm_compute. reflexivity. Qed.

Example only_plex_is_no_match :
  no_matching_row Sample.syncing_class Sample.legacy_session.
Proof. intros tag Htag. inversion Htag; subst. repeat constructor. discriminate. Qed.

(** A class that was never registered has no tag and goes to the settings,
    whatever servers there are. *)
Example unregistered_class_uses_settings :
  construct (mkClass Unset Sample.sync_statistics None None) None
    Sample.two_servers_session
  = mkClient (mkClass Unset Sample.sync_statistics None None) Unset Unset
      (Bound None) (Bound None).
Proof. vm_compute. reflexivity. Qed.

(** A Jellyfin client among a Plex server and two Jellyfin servers adopts
    the first Jellyfin server. *)
Lemma configuration_resolution_order_witness :
  construct Sample.syncing_class None Sample.two_servers_session
  = mkClient Sample.syncing_class (Bound Sample.second_server) (Bound 2)
      (Bound (Some "http://two:8096/")) (Bound (Some "test_key")).
Proof.
  refine (proj1 (proj2 (configuration_resolution_order Sample.syncing_class
                          "server_url" "api_key" Sample.two_servers_session))
            "jellyfin" [Sample.plex_server] Sample.second_server [Sample.third_server]
            eq_refl _ eq_refl _ eq_refl).
  - discriminate.
  - repeat constructor. discriminate.
Defined.

(** A Jellyfin client where only a Plex server is configured falls back to
    the settings and cannot produce an image-proxy URL. *)
Lemma legacy_client_has_no_server_id_witness :
  let self := construct Sample.syncing_class None Sample.legacy_session in
  url self = Bound (Some "http://legacy:8096")
  /\ server_id self = Unset
  /\ generate_image_proxy_url (fun image_url _ => image_url) (fun t => t) self
       "http://plex:32400/thumb.jpg"
     = Raise (AttributeError "object has no attribute 'server_id'").
Proof.
  intros self.
  assert (Hnone : no_matching_row Sample.syncing_class Sample.legacy_session).
  { intros tag Htag. inversion Htag; subst. repeat constructor. discriminate. }
  destruct (@legacy_client_has_no_server_id Sample.syncing_class "server_url" "api_key"
              Sample.legacy_session (fun image_url _ => image_url) (fun t => t)
              "http://plex:32400/thumb.jpg" Hnone) as (_ & Hid & _ & Hproxy).
  split; [vm_compute; reflexivity |]. split; [exact Hid | exact Hproxy].
Defined.

End ClientBaseFacts.

(** ** More on the guards *)

Module GuardFacts.

Import Decorators GuardOutcome.

Section Guards.

Context {Args R : Type}.
Variable f : Args -> M R.

(** X1.  Each of the three guards either runs the view, passing on its
    result, exception and effects, or leaves the world untouched and answers
    with the unauthorized response (only for a user that is not
    authenticated) or with 403 (only for one that is).  A user that is not
    authenticated never reaches the view. *)
Theorem guards_only_intercept (p : Principal) (permission : string)
  (args : Args) (w : World) :
  intercepts f p args w (admin_required f p args w)
  /\ intercepts f p args w (permission_required f p permission args w)
  /\ intercepts f p args w (guest_allowed f p args w)
  /\ (is_authenticated p = false ->
      admin_required f p args w = (Ok Unauthorized, w)
      /\ permission_required f p permission args w = (Ok Unauthorized, w)
      /\ guest_allowed f p args w = (Ok Unauthorized, w)).
Proof.
  unfold admin_required, permission_required, guest_allowed.
  destruct (is_authenticated p) eqn:Hauth; simpl.
  - split; [| split; [| split]]; try discriminate.
    + destruct (is_admin_call p); [constructor |].
      destruct (hasattr (id p) && id_is_admin (id p)); constructor; exact Hauth.
    + destruct (has_permission_call p permission); [constructor |].
      destruct (hasattr (id p) && id_is_admin (id p)); constructor; exact Hauth.
    + destruct (hasattr (role p) || hasattr (id p) && id_is_admin (id p));
        constructor; exact Hauth.
  - split; [| split; [| split]]; try (constructor; exact Hauth).
    intros _. repeat split.
Qed.

(** X2.  An authenticated user whose id is the string ['admin'] passes all
    three guards, for every permission, whatever its [is_admin()],
    [has_permission()] and [role] are or whether it has them at all. *)
Theorem legacy_id_passes_every_guard (p : Principal) (permission : string)
  (args : Args) (w : World) :
  is_authenticated p = true ->
  id p = Bound (IdStr "admin") ->
  admin_required f p args w = call_view f args w
  /\ permission_required f p permission args w = call_view f args w
  /\ guest_allowed f p args w = call_view f args w.
Proof.
  intros Hauth Hid.
  unfold admin_required, permission_required, guest_allowed.
  rewrite Hauth, Hid. simpl.
  destruct (is_admin_call p), (has_permission_call p permission), (hasattr (role p));
    repeat split; reflexivity.
Qed.

End Guards.

(** A user that denies everything but has the legacy id. *)
Lemma legacy_id_passes_every_guard_witness :
  let p := mkPrincipal true (Bound false) (Bound (fun _ => false))
             (Bound (IdStr "admin")) Unset in
  admin_required Sample.view p 41 Sample.empty_world
  = (Ok (Returned 42), logged INFO "view called" Sample.empty_world)
  /\ permission_required Sample.view p "manage_users" 41 Sample.empty_world
     = (Ok (Returned 42), logged INFO "view called" Sample.empty_world)
  /\ guest_allowed Sample.view p 41 Sample.empty_world
     = (Ok (Returned 42), logged INFO "view called" Sample.empty_world).
Proof.
  intros p.
  exact (legacy_id_passes_every_guard Sample.view p "manage_users" 41
           Sample.empty_world eq_refl eq_refl).
Defined.

End GuardFacts.

(** ** More on delegated authentication *)

Module ScanFacts.

Import JellyfinAuth.

Lemma append_slash_cons (u : string) : exists a r, u +:+ "/" = String a r.
Proof. destruct u; simpl; eauto. Qed.

Lemma endswith_append_slash (u : string) : endswith (u +:+ "/") "/"%char = true.
Proof.
  induction u as [| a u IH]; [reflexivity |].
  simpl. destruct (append_slash_cons u) as (b & r & Heq).
  rewrite Heq in *. exact IH.
Qed.

Lemma only_logs_refl (w : World) : only_logs w w.
Proof. exists []. destruct w. simpl. rewrite List.app_nil_r. reflexivity. Qed.

Lemma only_logs_logged (l : level) (msg : string) (w : World) :
  only_logs w (logged l msg w).
Proof. exists [(l, msg)]. reflexivity. Qed.

Lemma only_logs_trans (w1 w2 w3 : World) :
  only_logs w1 w2 -> only_logs w2 w3 -> only_logs w1 w3.
Proof.
  intros [l1 ->] [l2 ->]. exists (l1 ++ l2). simpl.
  rewrite List.app_assoc. reflexivity.
Qed.

Section Check.

Variable requests_post : string -> Py.json -> Py.json -> post_outcome.
Variables username password : string.

#[local] Abbreviation check := (_authenticate_against_server requests_post).
#[local] Abbreviation answer :=
  (fun server_url => requests_post (auth_url_of server_url)
                       (payload_of username password) headers).

(** X3.  A server URL given without its final slash reaches the same
    address, and so gets the same check, as the URL with the slash. *)
Theorem trailing_slash_does_not_matter (server_url : string) (w : World) :
  endswith server_url "/"%char = false ->
  auth_url_of (server_url +:+ "/") = auth_url_of server_url
  /\ check (server_url +:+ "/") username password w
     = check server_url username password w.
Proof.
  intros Hno.
  assert (Hurl : auth_url_of (server_url +:+ "/") = auth_url_of server_url).
  { unfold auth_url_of. rewrite endswith_append_slash, Hno. reflexivity. }
  split; [exact Hurl |].
  unfold _authenticate_against_server. rewrite Hurl. reflexivity.
Qed.

(** X4.  The check returns success exactly when the server answers 200
    with a body that [response.json()] reads and the code can take apart;
    the user info is then the dictionary built from that body, never
    [None]. *)
Theorem check_succeeds_exactly_on_readable_200
  (server_url : string) (w : World) (user_info : option Py.json) :
  fst (check server_url username password w) = Ok (true, user_info)
  <-> exists r user_data info,
        answer server_url = Responded r
        /\ status_code r = 200
        /\ json r = Ok user_data
        /\ build_user_info user_data = Ok info
        /\ user_info = Some info.
Proof.
  rewrite JellyfinAuthFacts.authenticate_against_run. split.
  - intros H.
    destruct (requests_post _ _ _) as [r | e]; [| discriminate].
    destruct (Z.eqb_spec (status_code r) 200) as [H200 | _].
    + destruct (json r) as [user_data | e] eqn:Hjson; simpl in H; [| discriminate].
      destruct (build_user_info user_data) as [info | e] eqn:Hinfo; [| discriminate].
      inversion H; subst. exists r, user_data, info. auto.
    + destruct (Z.eqb (status_code r) 401); discriminate.
  - intros (r & user_data & info & -> & H200 & Hjson & Hinfo & ->).
    rewrite H200, Hjson. simpl. rewrite Hinfo. reflexivity.
Qed.

(** X5.  An answer with any status other than 200, a 2xx one included, is
    a failure that does not raise, and its body is not read: the result is
    [(False, None)] even when [response.json()] would raise.  One record is
    logged, at DEBUG for 401 and at WARNING otherwise. *)
Theorem other_status_fails_without_reading_body
  (server_url : string) (w : World) (r : Response) :
  answer server_url = Responded r ->
  status_code r <> 200 ->
  exists record,
    check server_url username password w
    = (Ok (false, None), mkWorld (db w) (log w ++ [record]) (calls w))
    /\ fst record = (if Z.eqb (status_code r) 401 then DEBUG else WARNING).
Proof.
  intros Hans Hne. rewrite JellyfinAuthFacts.authenticate_against_run, Hans.
  apply Z.eqb_neq in Hne. rewrite Hne.
  destruct (Z.eqb (status_code r) 401); eexists; split; reflexivity.
Qed.

(** X6.  The check raises exactly when the request itself raises, or when
    the server answers 200 with a body that cannot be read or taken apart;
    the exception raised is that very exception, and an ERROR record is
    logged before it leaves. *)
Theorem check_raises_exactly_on_failed_request_or_bad_body
  (server_url : string) (w : World) (e : exn) :
  (fst (check server_url username password w) = Raise e
   <-> answer server_url = Failed e
       \/ exists r, answer server_url = Responded r
                    /\ status_code r = 200
                    /\ (user_data ← json r; build_user_info user_data) = Raise e)
  /\ (fst (check server_url username password w) = Raise e ->
      snd (check server_url username password w)
      = logged ERROR
          (if is_request_exception e
           then "Network error during Jellyfin authentication: " +:+ exn_str e
           else "Unexpected error during Jellyfin authentication: " +:+ exn_str e) w).
Proof.
  rewrite JellyfinAuthFacts.authenticate_against_run. split; [split |].
  - intros H.
    destruct (requests_post _ _ _) as [r | e'].
    + right. exists r. split; [reflexivity |].
      destruct (Z.eqb_spec (status_code r) 200) as [H200 | _].
      * split; [exact H200 |].
        destruct (_ ← json r; build_user_info _); inversion H; reflexivity.
      * destruct (Z.eqb (status_code r) 401); discriminate.
    + left. inversion H; reflexivity.
  - intros [-> | (r & -> & H200 & Hbody)]; [reflexivity |].
    rewrite H200, Hbody. reflexivity.
  - intros H.
    destruct (requests_post _ _ _) as [r | e'].
    + destruct (Z.eqb (status_code r) 200).
      * destruct (_ ← json r; build_user_info _); inversion H; reflexivity.
      * destruct (Z.eqb (status_code r) 401); discriminate.
    + inversion H; reflexivity.
Qed.

(** Whatever the world, a check gives the same result and appends the same
    single record to the log. *)
Lemma check_uniform (server_url : string) :
  exists res record,
    forall w, check server_url username password w
              = (res, mkWorld (db w) (log w ++ [record]) (calls w)).
Proof.
  destruct (answer server_url) as [r | e] eqn:Hans.
  - destruct (Z.eqb (status_code r) 200) eqn:H200.
    + destruct (user_data ← json r; build_user_info user_data) as [info | e] eqn:Hb;
        eexists; eexists; intros w;
        rewrite JellyfinAuthFacts.authenticate_against_run, Hans, H200, Hb;
        reflexivity.
    + destruct (Z.eqb (status_code r) 401) eqn:H401;
        eexists; eexists; intros w;
        rewrite JellyfinAuthFacts.authenticate_against_run, Hans, H200, H401;
        reflexivity.
  - eexists; eexists; intros w.
    rewrite JellyfinAuthFacts.authenticate_against_run, Hans. reflexivity.
Qed.

End Check.

(** X7.  What the code makes of the body of a 200 answer.  A body that is
    an object without a ["User"] key is accepted: id and name are [None],
    the two password flags default to [True] and the policy to an empty
    dictionary.  A body whose ["User"] entry is not an object (null, for
    one), or that is not an object itself, raises [AttributeError].  When
    the user info is built, it has exactly the seven keys, in this
    order. *)
Theorem user_info_of_body (user_data : Py.json) :
  (forall items,
      user_data = JDict items ->
      items_get items "User" = None ->
      build_user_info user_data
      = Ok (JDict [("id", JNull);
                   ("name", JNull);
                   ("has_password", JBool true);
                   ("has_configured_password", JBool true);
                   ("server_id",
                    match items_get items "ServerId" with Some v => v | None => JNull end);
                   ("access_token",
                    match items_get items "AccessToken" with Some v => v | None => JNull end);
                   ("policy", JDict [])]))
  /\ (forall items user,
         user_data = JDict items ->
         items_get items "User" = Some user ->
         (forall fields, user <> JDict fields) ->
         exists msg, build_user_info user_data = Raise (AttributeError msg))
  /\ ((forall items, user_data <> JDict items) ->
      exists msg, build_user_info user_data = Raise (AttributeError msg))
  /\ (forall user_info,
         build_user_info user_data = Ok user_info ->
         exists id name has_password has_configured_password server_id access_token policy,
           user_info = JDict [("id", id);
                              ("name", name);
                              ("has_password", has_password);
                              ("has_configured_password", has_configured_password);
                              ("server_id", server_id);
                              ("access_token", access_token);
                              ("policy", policy)]).
Proof.
  split; [| split; [| split]].
  - intros items -> Hnone.
    unfold build_user_info, user_get, mbind, result_bind, dict_get.
    rewrite Hnone. reflexivity.
  - intros items user -> Hsome Hnot.
    unfold build_user_info, user_get, mbind, result_bind, dict_get.
    rewrite Hsome.
    destruct user; try (eexists; reflexivity).
    exfalso. eapply Hnot. reflexivity.
  - intros Hnot.
    unfold build_user_info, user_get, mbind, result_bind, dict_get.
    destruct user_data; try (eexists; reflexivity).
    exfalso. eapply Hnot. reflexivity.
  - unfold build_user_info, mbind, result_bind, mret, result_ret.
    intros user_info H.
    repeat match type of H with
           | context [match ?x with Ok _ => _ | Raise _ => _ end] =>
               destruct x; try discriminate
           end.
    inversion H. do 7 eexists. reflexivity.
Qed.

Section Scan.

Variable requests_post : string -> Py.json -> Py.json -> post_outcome.
Variables username password : string.

#[local] Abbreviation authenticate := (authenticate_jellyfin_user requests_post).
#[local] Abbreviation scan := (for_server requests_post).

(** The loop, whatever the world: the same result, the same records. *)
Lemma scan_uniform (l : list MediaServer.t) :
  exists res records,
    forall w, scan l username password w
              = (Ok res, mkWorld (db w) (log w ++ records) (calls w)).
Proof.
  induction l as [| server rest (res & records & IH)].
  - exists (false, None, None), []. intros w. destruct w. simpl.
    rewrite List.app_nil_r. reflexivity.
  - destruct (check_uniform requests_post username password (MediaServer.url server))
      as (r & record & Hcheck).
    destruct r as [[[|] info] | e].
    + exists (true, Some (MediaServer.name server), info), [record]. intros w.
      simpl. unfold try_except, mbind, M_bind. rewrite Hcheck. reflexivity.
    + exists res, (record :: records). intros w.
      simpl. unfold try_except, mbind, M_bind. rewrite Hcheck. simpl.
      rewrite IH. simpl. rewrite <- List.app_assoc. reflexivity.
    + eexists res, (record :: _ :: records). intros w.
      simpl. unfold try_except, mbind, M_bind. rewrite Hcheck. simpl.
      rewrite IH. simpl. rewrite <- !List.app_assoc. reflexivity.
Qed.

(** Either the checks all fail, or there is a first one that succeeds. *)
Lemma first_success_or_all_fail (l : list MediaServer.t) :
  Forall (check_fails requests_post username password) l
  \/ exists pre server post info,
       l = pre ++ server :: post
       /\ Forall (check_fails requests_post username password) pre
       /\ check_succeeds requests_post username password server info.
Proof.
  induction l as [| x l IH]; [left; constructor |].
  destruct (JellyfinAuthFacts.check_succeeds_or_fails requests_post username password x)
    as [[info Hs] | Hf].
  - right. exists [], x, l, info. repeat split; auto.
  - destruct IH as [Hall | (pre & server & post & info & -> & Hpre & Hs)].
    + left. constructor; assumption.
    + right. exists (x :: pre), server, post, info. repeat split; auto.
Qed.


(** X9.  [authenticate_jellyfin_user] writes to the log and to nothing
    else: the session, live and stored, and the recorded calls are as they
    were, and the log has only grown. *)
Theorem authenticate_only_logs (w : World) :
  only_logs w (snd (authenticate username password w)).
Proof.
  unfold authenticate_jellyfin_user, mbind, M_bind, get_db.
  destruct (jellyfin_servers_of (db w)) as [| x l] eqn:E.
  - apply only_logs_logged.
  - destruct (scan_uniform (x :: l)) as (res & records & H).
    rewrite H. exists records. reflexivity.
Qed.

End Scan.

Section TwoNetworks.

Variables net1 net2 : string -> Py.json -> Py.json -> post_outcome.
Variables username password : string.

(** Two networks that answer alike at the address of a server. *)
Lemma check_agree (server_url : string) (w : World) :
  net1 (auth_url_of server_url) (payload_of username password) headers
  = net2 (auth_url_of server_url) (payload_of username password) headers ->
  _authenticate_against_server net2 server_url username password w
  = _authenticate_against_server net1 server_url username password w.
Proof.
  intros H. rewrite !JellyfinAuthFacts.authenticate_against_run, H. reflexivity.
Qed.

Lemma scan_agree (pre post1 post2 : list MediaServer.t) (server : MediaServer.t)
  (info : Py.json) :
  (forall x, In x (pre ++ [server]) ->
             net1 (auth_url_of (MediaServer.url x)) (payload_of username password) headers
             = net2 (auth_url_of (MediaServer.url x)) (payload_of username password) headers) ->
  check_succeeds net1 username password server info ->
  exists res records,
    (forall w, for_server net1 (pre ++ server :: post1) username password w
               = (Ok res, mkWorld (db w) (log w ++ records) (calls w)))
    /\ (forall w, for_server net2 (pre ++ server :: post2) username password w
                  = (Ok res, mkWorld (db w) (log w ++ records) (calls w))).
Proof.
  intros Hagree Hs. induction pre as [| x pre IH].
  - destruct (check_uniform net1 username password (MediaServer.url server))
      as (r & record & Hcheck).
    assert (Hr : r = Ok (true, Some info)).
    { specialize (Hs Sample.empty_world). rewrite Hcheck in Hs. exact Hs. }
    subst r.
    exists (true, Some (MediaServer.name server), Some info), [record].
    split; intros w; simpl; unfold try_except, mbind, M_bind.
    + rewrite Hcheck. reflexivity.
    + rewrite check_agree by (apply Hagree; left; reflexivity).
      rewrite Hcheck. reflexivity.
  - destruct IH as (res & records & IH1 & IH2).
    { intros y Hy. apply Hagree. right. exact Hy. }
    destruct (check_uniform net1 username password (MediaServer.url x))
      as (r & record & Hcheck).
    assert (Hx : forall w,
               _authenticate_against_server net2 (MediaServer.url x) username password w
               = (r, mkWorld (db w) (log w ++ [record]) (calls w))).
    { intros w. rewrite check_agree by (apply Hagree; left; reflexivity). apply Hcheck. }
    destruct r as [[[|] oinfo] | e].
    + exists (true, Some (MediaServer.name x), oinfo), [record].
      split; intros w; simpl; unfold try_except, mbind, M_bind;
        [rewrite Hcheck | rewrite Hx]; reflexivity.
    + exists res, (record :: records).
      split; intros w; simpl; unfold try_except, mbind, M_bind;
        [rewrite Hcheck; simpl; rewrite IH1 | rewrite Hx; simpl; rewrite IH2];
        simpl; rewrite <- List.app_assoc; reflexivity.
    + eexists res, (record :: _ :: records).
      split; intros w; simpl; unfold try_except, mbind, M_bind;
        [rewrite Hcheck; simpl; rewrite IH1 | rewrite Hx; simpl; rewrite IH2];
        simpl; rewrite <- !List.app_assoc; reflexivity.
Qed.

Lemma authenticate_nonempty
  (net : string -> Py.json -> Py.json -> post_outcome) (w : World)
  (pre post : list MediaServer.t) (server : MediaServer.t) :
  jellyfin_servers_of (db w) = pre ++ server :: post ->
  authenticate_jellyfin_user net username password w
  = for_server net (pre ++ server :: post) username password w.
Proof.
  intros Hl. unfold authenticate_jellyfin_user, mbind, M_bind, get_db.
  rewrite Hl. destruct pre; reflexivity.
Qed.

(** X10.  The servers that come after the first one whose check succeeds
    play no part: with other servers in their place, and with a network
    that answers otherwise at their addresses, the result is the same and
    the same records are logged. *)
Theorem servers_after_the_first_success_play_no_part
  (w1 w2 : World) (pre post1 post2 : list MediaServer.t) (server : MediaServer.t)
  (info : Py.json) :
  jellyfin_servers_of (db w1) = pre ++ server :: post1 ->
  jellyfin_servers_of (db w2) = pre ++ server :: post2 ->
  (forall x, In x (pre ++ [server]) ->
             net1 (auth_url_of (MediaServer.url x)) (payload_of username password) headers
             = net2 (auth_url_of (MediaServer.url x)) (payload_of username password) headers) ->
  check_succeeds net1 username password server info ->
  exists res records,
    authenticate_jellyfin_user net1 username password w1
    = (Ok res, mkWorld (db w1) (log w1 ++ records) (calls w1))
    /\ authenticate_jellyfin_user net2 username password w2
       = (Ok res, mkWorld (db w2) (log w2 ++ records) (calls w2)).
Proof.
  intros Hl1 Hl2 Hagree Hs.
  destruct (scan_agree pre post1 post2 Hagree Hs) as (res & records & H1 & H2).
  exists res, records.
  rewrite (authenticate_nonempty net1 w1 pre post1 server Hl1).
  rewrite (authenticate_nonempty net2 w2 pre post2 server Hl2).
  split; [apply H1 | apply H2].
Qed.

End TwoNetworks.

Section Creation.

Variable generate_password_hash : string -> string.

(** X11.  [create_guest_account_from_jellyfin] with a user info that is not
    a dictionary (the [None] of a failed authentication, say) raises
    [AttributeError] before anything is added, committed or logged: the
    world is the one the function found. *)
Theorem create_guest_account_needs_a_dictionary
  (username server_name token : string) (user_info : Py.json) (w : World) :
  (forall items, user_info <> JDict items) ->
  exists msg,
    create_guest_account_from_jellyfin generate_password_hash username server_name
      user_info token w = (Raise (AttributeError msg), w).
Proof.
  intros Hnot.
  unfold create_guest_account_from_jellyfin, mbind, M_bind, lift, dict_get.
  destruct user_info; try (eexists; reflexivity).
  exfalso. eapply Hnot. reflexivity.
Qed.

End Creation.

(** The user info of a failed authentication is [None]: no account comes
    of it. *)
Lemma create_guest_account_needs_a_dictionary_witness :
  exists msg,
    create_guest_account_from_jellyfin Sample.hash "bob" "Bare" JNull "random-token"
      Sample.bare_world = (Raise (AttributeError msg), Sample.bare_world).
Proof.
  apply (@create_guest_account_needs_a_dictionary Sample.hash "bob" "Bare" "random-token"
           JNull Sample.bare_world).
  intros items H. discriminate H.
Defined.

Lemma trailing_slash_does_not_matter_witness :
  _authenticate_against_server Sample.network ("http://three:8096" +:+ "/")
    "testuser" "testpass" Sample.empty_world
  = _authenticate_against_server Sample.network "http://three:8096"
      "testuser" "testpass" Sample.empty_world.
Proof.
  exact (proj2 (trailing_slash_does_not_matter Sample.network "testuser" "testpass"
                  "http://three:8096" Sample.empty_world eq_refl)).
Defined.

Lemma other_status_fails_without_reading_body_witness :
  exists record,
    _authenticate_against_server Sample.erroring "http://localhost:8096"
      "testuser" "testpass" Sample.empty_world
    = (Ok (false, None),
       mkWorld (db Sample.empty_world) (log Sample.empty_world ++ [record])
         (calls Sample.empty_world))
    /\ fst record = WARNING.
Proof.
  refine (other_status_fails_without_reading_body Sample.erroring "testuser" "testpass"
            "http://localhost:8096" Sample.empty_world
            (r := JellyfinAuth.mkResponse 500 "Internal Server Error"
                    (Raise (ValueError "Expecting value: line 1 column 1 (char 0)")))
            eq_refl _).
  simpl. lia.
Defined.

Lemma servers_after_the_first_success_play_no_part_witness :
  exists res records,
    authenticate_jellyfin_user Sample.network "testuser" "testpass" Sample.three_servers
    = (Ok res,
       mkWorld (db Sample.three_servers) (log Sample.three_servers ++ records)
         (calls Sample.three_servers))
    /\ authenticate_jellyfin_user Sample.other_network "testuser" "testpass"
         Sample.four_servers
       = (Ok res,
          mkWorld (db Sample.four_servers) (log Sample.four_servers ++ records)
            (calls Sample.four_servers)).
Proof.
  refine (@servers_after_the_first_success_play_no_part
            Sample.network Sample.other_network "testuser" "testpass"
            Sample.three_servers Sample.four_servers
            [Sample.first_server; Sample.second_server] [] [Sample.bare_server]
            Sample.third_server Sample.success_info
            eq_refl eq_refl _ _).
  - intros x [<- | [<- | [<- | []]]]; reflexivity.
  - intros w. vm_compute. reflexivity.
Defined.

End ScanFacts.

(** ** More on the media-client base class *)

Module RestFacts.

Import ClientBase RestApiMixin.

Lemma rstrip_slash_append_slash (s : string) :
  rstrip_slash (s +:+ "/") = rstrip_slash s.
Proof.
  induction s as [| c s IH]; [reflexivity |].
  simpl. rewrite IH. reflexivity.
Qed.

Section Requests.

Context {K : Type}.
Variable _headers : gmap string string.
Variable upper : string -> string.
Variable requests_request :
  string -> string -> gmap string string -> K -> JellyfinAuth.post_outcome.
Variable raise_for_status : JellyfinAuth.Response -> result unit.

#[local] Abbreviation request :=
  (_request _headers upper requests_request raise_for_status).

(** The headers and the address of the one request that is made. *)
#[local] Abbreviation sent_headers :=
  (fun kw : kwargs K =>
     merge_headers _headers (match kw_headers kw with Some h => h | None => ∅ end)).

(** What [_request] does for a client with a base URL, by what the network
    and [raise_for_status] do. *)
Lemma request_run (self : MediaClient) (base method path : string) (kw : kwargs K)
  (w : World) :
  url self = Bound (Some base) ->
  let address := rstrip_slash base +:+ path in
  let w1 := logged INFO (upper method +:+ " " +:+ address) w in
  request self method path kw w =
  match requests_request method address (sent_headers kw) (kw_rest kw) with
  | JellyfinAuth.Failed e =>
      (Raise e, logged ERROR ("Request failed: " +:+ exn_str e) w1)
  | JellyfinAuth.Responded r =>
      let w2 := logged INFO (arrow +:+ " " +:+ pretty (JellyfinAuth.status_code r)) w1 in
      match raise_for_status r with
      | Ok _ => (Ok r, w2)
      | Raise e => (Raise e, logged ERROR ("Request failed: " +:+ exn_str e) w2)
      end
  end.
Proof.
  intros Hurl address w1.
  unfold _request, mbind at 1, M_bind at 1, lift, getattr. rewrite Hurl.
  unfold try_except, send, mbind, M_bind, logging. fold address. fold w1.
  destruct (requests_request method address _ (kw_rest kw)) as [r | e]; simpl.
  - unfold lift. destruct (raise_for_status r) as [[] | e]; reflexivity.
  - reflexivity.
Qed.

(** X12.  Without a base URL no request is made: [_request] raises
    [ValueError] at once, with nothing logged.  This is what every request
    of a client does that was constructed with no server row, given or
    matching, where the settings have no entry under its URL key. *)
Theorem no_url_no_request (cls : ClientClass) (url_key token_key : string) (s : Session)
  (self : MediaClient) (method path : string) (kw : kwargs K) (w : World) :
  (url self = Bound None ->
   request self method path kw w
   = (Raise (ValueError "Media server URL is not configured"), w))
  /\ (no_matching_row cls s ->
      settings (live s) !! url_key = None ->
      request (__init__ (new cls) None url_key token_key s) method path kw w
      = (Raise (ValueError "Media server URL is not configured"), w)).
Proof.
  split.
  - intros Hurl. unfold _request, mbind, M_bind, lift, getattr. rewrite Hurl. reflexivity.
  - intros Hnone Hkey.
    rewrite (ClientBaseFacts.legacy_fallback url_key token_key Hnone), Hkey.
    reflexivity.
Qed.

(** X13.  Slashes at the end of the base URL do not count: a client whose
    URL has one more final slash makes the same request and gets the same
    outcome.  The path is appended as it is. *)
Theorem final_slash_of_base_url_does_not_count
  (self1 self2 : MediaClient) (base method path : string) (kw : kwargs K) (w : World) :
  url self1 = Bound (Some (base +:+ "/")) ->
  url self2 = Bound (Some base) ->
  request self1 method path kw w = request self2 method path kw w.
Proof.
  intros H1 H2.
  rewrite (request_run self1 method path kw w H1), (request_run self2 method path kw w H2).
  rewrite rstrip_slash_append_slash. reflexivity.
Qed.

(** X14.  For a client with a base URL, [_request] returns a response
    exactly when the network answers with it and [raise_for_status] accepts
    it; it raises [e] exactly when the network raises [e] or
    [raise_for_status] raises [e] on the answer.  In the latter case the
    last record of the log is the ERROR record of [e]. *)
Theorem request_returns_accepted_responses_only
  (self : MediaClient) (base method path : string) (kw : kwargs K) (w : World) :
  url self = Bound (Some base) ->
  let answer :=
    requests_request method (rstrip_slash base +:+ path) (sent_headers kw) (kw_rest kw) in
  (forall r,
      fst (request self method path kw w) = Ok r
      <-> answer = JellyfinAuth.Responded r /\ raise_for_status r = Ok tt)
  /\ (forall e,
         fst (request self method path kw w) = Raise e
         <-> answer = JellyfinAuth.Failed e
             \/ exists r, answer = JellyfinAuth.Responded r /\ raise_for_status r = Raise e)
  /\ (forall e,
         fst (request self method path kw w) = Raise e ->
         exists records,
           log (snd (request self method path kw w))
           = log w ++ records ++ [(ERROR, "Request failed: " +:+ exn_str e)]).
Proof.
  intros Hurl answer. rewrite (request_run self method path kw w Hurl).
  fold answer. cbv zeta.
  destruct answer as [r0 | e0].
  - destruct (raise_for_status r0) as [[] | e0] eqn:Hst; simpl.
    + split; [| split].
      * intros r. split.
        -- intros H. inversion H; subst. auto.
        -- intros [H _]. inversion H; subst. reflexivity.
      * intros e. split; [discriminate |].
        intros [H | (r & H & Hr)]; [discriminate |].
        inversion H; subst. congruence.
      * discriminate.
    + split; [| split].
      * intros r. split; [discriminate |].
        intros [H Hr]. inversion H; subst. congruence.
      * intros e. split.
        -- intros H. inversion H; subst. right. eauto.
        -- intros [H | (r & H & Hr)]; [discriminate |].
           inversion H; subst. congruence.
      * intros e H. inversion H; subst. eexists [_; _]. simpl.
        rewrite <- !List.app_assoc. reflexivity.
  - simpl. split; [| split].
    + intros r. split; [discriminate | intros [H _]; discriminate].
    + intros e. split.
      * intros H. inversion H; subst. left. reflexivity.
      * intros [H | (r & H & _)]; [inversion H; reflexivity | discriminate].
    + intros e H. inversion H; subst. eexists [_]. simpl.
      rewrite <- !List.app_assoc. reflexivity.
Qed.

(** X15.  A header given with the call replaces the default header of the
    same name; every other default header is sent too. *)
Theorem call_headers_override_defaults (kw : kwargs K) (name : string) :
  sent_headers kw !! name
  = match kw_headers kw with
    | Some h => match h !! name with Some v => Some v | None => _headers !! name end
    | None => _headers !! name
    end.
Proof.
  unfold merge_headers. rewrite lookup_union.
  destruct (kw_headers kw) as [h |].
  - destruct (h !! name), (_headers !! name); reflexivity.
  - rewrite lookup_empty. destruct (_headers !! name); reflexivity.
Qed.

End Requests.

Lemma final_slash_of_base_url_does_not_count_witness :
  _request default_headers (fun m => m) Cases.rest_server Cases.raise_for_status
    (Cases.client_at (Some ("http://three:8096" +:+ "/"))) "GET" "/System/Info"
    (mkKwargs None tt) Sample.empty_world
  = _request default_headers (fun m => m) Cases.rest_server Cases.raise_for_status
      (Cases.client_at (Some "http://three:8096")) "GET" "/System/Info"
      (mkKwargs None tt) Sample.empty_world.
Proof.
  exact (final_slash_of_base_url_does_not_count default_headers (fun m => m)
           Cases.rest_server Cases.raise_for_status
           (Cases.client_at (Some ("http://three:8096" +:+ "/")))
           (Cases.client_at (Some "http://three:8096"))
           "GET" "/System/Info" (mkKwargs None tt) Sample.empty_world eq_refl eq_refl).
Defined.

(** A forbidden path: the 403 answer is logged, then raised. *)
Lemma request_returns_accepted_responses_only_witness :
  fst (_request default_headers (fun m => m) Cases.rest_server Cases.raise_for_status
         (Cases.client_at (Some "http://three:8096/")) "GET" "/Users"
         (mkKwargs None tt) Sample.empty_world)
  = Raise (RequestException "403 Error").
Proof.
  apply (proj1 (proj2 (request_returns_accepted_responses_only
                         default_headers (fun m => m)
                         Cases.rest_server Cases.raise_for_status
                         (Cases.client_at (Some "http://three:8096/"))
                         "GET" "/Users" (mkKwargs None tt) Sample.empty_world
                         eq_refl))).
  right. eexists. split; [vm_compute; reflexivity | vm_compute; reflexivity].
Defined.

Example request_log :
  log (snd (_request default_headers (fun m => m) Cases.rest_server
              Cases.raise_for_status
              (Cases.client_at (Some "http://three:8096//")) "GET" "/System/Info"
              (mkKwargs None tt) Sample.empty_world))
  = [(INFO, "GET http://three:8096/System/Info"); (INFO, arrow +:+ " 200")].
Proof. vm_compute. reflexivity. Qed.

End RestFacts.

Module JoinFacts.

Import JoinFlow.

Section Join.

Variable _do_join : string -> string -> string -> string -> M (bool * string).
Variable notify : string -> string -> string -> string -> M unit.

(** X16.  [join] returns what [_do_join] returns, or raises what it
    raises, whatever the notification service does: a notification that
    fails changes neither the success flag nor the message. *)
Theorem join_returns_what_do_join_returns
  (username password confirm code : string) (w : World) :
  fst (join _do_join notify username password confirm code w)
  = fst (_do_join username password confirm code w).
Proof.
  unfold join, mbind, M_bind, try_except.
  destruct (_do_join username password confirm code w) as [[[[|] message] | e] w1];
    simpl; try reflexivity.
  destruct (notify _ _ _ _ w1) as [[[] | e] w2]; reflexivity.
Qed.

(** X17.  The notification is sent after a successful [_do_join] and only
    then.  When [_do_join] reports failure or raises, [join] does nothing
    more.  When it reports success, the world is the one the notification
    left, with one WARNING record more when the notification raised. *)
Theorem join_notifies_on_success_only
  (username password confirm code : string) (w : World) :
  match _do_join username password confirm code w with
  | (Ok (true, message), w1) =>
      match notify "New User"
              ("User " +:+ username +:+ " has joined your server! " +:+ tada)
              "tada" "user_joined" w1 with
      | (Ok _, w2) =>
          join _do_join notify username password confirm code w
          = (Ok (true, message), w2)
      | (Raise e, w2) =>
          join _do_join notify username password confirm code w
          = (Ok (true, message),
             logged WARNING ("Failed to send join notification: " +:+ exn_str e) w2)
      end
  | (Ok (false, message), w1) =>
      join _do_join notify username password confirm code w = (Ok (false, message), w1)
  | (Raise e, w1) =>
      join _do_join notify username password confirm code w = (Raise e, w1)
  end.
Proof.
  unfold join, mbind, M_bind, try_except.
  destruct (_do_join username password confirm code w) as [[[[|] message] | e] w1];
    simpl; try reflexivity.
  destruct (notify _ _ _ _ w1) as [[[] | e] w2]; reflexivity.
Qed.

End Join.

Example join_with_notifications_down :
  join Cases.do_join Cases.notify_down "carol" "Secret123" "Secret123" "LIMITED1"
    Sample.invited
  = (Ok (true, ""),
     logged WARNING "Failed to send join notification: ntfy unreachable"
       (snd (add_user (Sample.redeem "carol" "a@x.com" "LIMITED1" None) Sample.invited))).
Proof. vm_compute. reflexivity. Qed.

End JoinFacts.

Module MetadataFacts.

Import Metadata.

Section Batch.

Variable get_user : string -> M json.
Variable update_standardized_metadata : User.t -> MediaUserDetails -> M unit.
Variable commit_error : World -> option exn.

#[local] Abbreviation details := (get_user_details get_user).
#[local] Abbreviation one := (cache_one get_user update_standardized_metadata).
#[local] Abbreviation loop := (for_user get_user update_standardized_metadata).
#[local] Abbreviation batch :=
  (_cache_user_metadata_batch get_user update_standardized_metadata commit_error).

(** X18.  The default [get_user_details] passes on what [get_user] raises.
    When [get_user] returns a dictionary it always returns: the username
    defaults to ["Unknown"] and the email to [None] when the key is
    missing, and the raw policies are the whole dictionary.  When
    [get_user] returns anything else it raises [AttributeError].  The world
    is in every case the one [get_user] left. *)
Theorem get_user_details_by_get_user (user_identifier : string) (w : World) :
  match get_user user_identifier w with
  | (Raise e, w1) => details user_identifier w = (Raise e, w1)
  | (Ok (JDict items), w1) =>
      details user_identifier w
      = (Ok (mkDetails user_identifier
               (match items_get items "username" with
                | Some v => v
                | None => JStr "Unknown"
                end)
               (match items_get items "email" with Some v => v | None => JNull end)
               (JDict items)),
         w1)
  | (Ok _, w1) => exists msg, details user_identifier w = (Raise (AttributeError msg), w1)
  end.
Proof.
  unfold get_user_details, mbind, M_bind, lift, dict_get.
  destruct (get_user user_identifier w) as [[raw | e] w1]; [| reflexivity].
  destruct raw; first [reflexivity | eexists; reflexivity].
Qed.

(** A [try] whose handler returns does not raise. *)
Lemma try_except_returns {A} (body : M A) (handler : exn -> M A) (w : World) :
  (forall e w1, exists a w', handler e w1 = (Ok a, w')) ->
  exists a w', try_except body handler w = (Ok a, w').
Proof.
  intros Hh. unfold try_except.
  destruct (body w) as [[a | e] w1]; [eauto | apply Hh].
Qed.

Lemma cache_one_returns (user : User.t) (w : World) :
  exists cached w', one user w = (Ok cached, w').
Proof.
  unfold cache_one. apply try_except_returns.
  intros e w1. eexists. eexists. reflexivity.
Qed.

Lemma for_user_returns (users : list User.t) (cached_count : nat) (w : World) :
  exists n w',
    loop users cached_count w = (Ok n, w')
    /\ (cached_count <= n <= cached_count + length users)%nat.
Proof.
  revert cached_count w. induction users as [| user rest IH]; intros c w.
  - exists c, w. split; [reflexivity | simpl; lia].
  - destruct (cache_one_returns user w) as (cached & w1 & Hone).
    destruct (IH (if cached then S c else c) w1) as (n & w' & Hloop & Hbound).
    exists n, w'. split.
    + simpl. unfold mbind, M_bind. rewrite Hone. exact Hloop.
    + simpl. destruct cached; lia.
Qed.

(** X19.  [_cache_user_metadata_batch] never raises, whatever the media
    server, the metadata update and the storage engine do. *)
Theorem batch_never_raises (users : list User.t) (w : World) :
  fst (batch users w) = Ok tt.
Proof.
  unfold _cache_user_metadata_batch.
  destruct users as [| user rest]; [reflexivity |].
  destruct (for_user_returns (user :: rest) 0 w) as (n & w1 & Hloop & _).
  unfold mbind at 1, M_bind at 1. rewrite Hloop.
  destruct (Nat.ltb 0 n); [| reflexivity].
  unfold try_except, commit_or_raise, mbind, M_bind.
  destruct (commit_error w1); reflexivity.
Qed.

(** X20.  Users without a token (none, or an empty one) are passed over:
    for a batch of such users nothing is fetched, logged or committed. *)
Theorem users_without_token_are_passed_over (users : list User.t) (w : World) :
  Forall (fun user => nonempty (User.token user) = None) users ->
  batch users w = (Ok tt, w).
Proof.
  intros Hall.
  assert (Hloop : forall c, loop users c w = (Ok c, w)).
  { induction Hall as [| user rest Hu _ IH]; intros c; [reflexivity |].
    simpl. unfold mbind, M_bind, cache_one, try_except,
      _get_user_identifier_for_details.
    rewrite Hu. simpl. apply IH. }
  unfold _cache_user_metadata_batch.
  destruct users as [| user rest]; [reflexivity |].
  unfold mbind, M_bind. rewrite Hloop. reflexivity.
Qed.

(** X21.  How the batch ends, given the count [n] and the world [w1] the
    loop leaves.  With nothing cached there is no commit.  Otherwise one
    commit is tried: it either stores the session and an INFO record gives
    the count, or it is refused, and then an ERROR record is logged and the
    session is rolled back to what was stored.  Either way the session ends
    with nothing pending. *)
Theorem batch_commits_once_or_rolls_back (users : list User.t) (w w1 : World) (n : nat) :
  loop users 0 w = (Ok n, w1) ->
  batch users w
  = (Ok tt,
     if Nat.ltb 0 n then
       match commit_error w1 with
       | None =>
           logged INFO ("Cached metadata for " +:+ pretty n +:+ " users")
             (mkWorld (mkSession (live (db w1)) (live (db w1))) (log w1) (calls w1))
       | Some e =>
           mkWorld (mkSession (stored (db w1)) (stored (db w1)))
             (log w1 ++ [(ERROR, "Failed to commit metadata cache: " +:+ exn_str e)])
             (calls w1)
       end
     else w1)
  /\ ((0 < n)%nat -> live (db (snd (batch users w))) = stored (db (snd (batch users w)))).
Proof.
  intros Hloop.
  assert (Hrun : batch users w
                 = (Ok tt,
                    if Nat.ltb 0 n then
                      match commit_error w1 with
                      | None =>
                          logged INFO ("Cached metadata for " +:+ pretty n +:+ " users")
                            (mkWorld (mkSession (live (db w1)) (live (db w1)))
                               (log w1) (calls w1))
                      | Some e =>
                          mkWorld (mkSession (stored (db w1)) (stored (db w1)))
                            (log w1
                             ++ [(ERROR, "Failed to commit metadata cache: " +:+ exn_str e)])
                            (calls w1)
                      end
                    else w1)).
  { unfold _cache_user_metadata_batch.
    destruct users as [| user rest].
    - simpl in Hloop. inversion Hloop; subst. reflexivity.
    - unfold mbind at 1, M_bind at 1. rewrite Hloop.
      destruct (Nat.ltb 0 n); [| reflexivity].
      unfold try_except, commit_or_raise, mbind, M_bind.
      destruct (commit_error w1); reflexivity. }
  split; [exact Hrun |].
  intros Hpos. rewrite Hrun. apply Nat.ltb_lt in Hpos. rewrite Hpos.
  destruct (commit_error w1); reflexivity.
Qed.

End Batch.

(** One user is known to the server, one is not, one has no token, and
    the storage engine is locked: one user is cached, one warning and one
    error are logged, and the session is rolled back. *)
Lemma batch_commits_once_or_rolls_back_witness :
  exists w',
    _cache_user_metadata_batch Cases.get_user Cases.update_metadata Cases.locked
      [Cases.user_with_token "alice" "tok-a"; Cases.user_with_token "bob" "tok-b";
       Cases.user_without_token "carol"] Sample.empty_world = (Ok tt, w')
    /\ live (db w') = stored (db w')
    /\ db w' = db Sample.empty_world
    /\ log w' = [(WARNING,
                  "Failed to cache metadata for user bob: 404 Client Error: Not Found");
                 (ERROR, "Failed to commit metadata cache: database is locked")].
Proof.
  destruct (@batch_commits_once_or_rolls_back
              Cases.get_user Cases.update_metadata Cases.locked
              [Cases.user_with_token "alice" "tok-a"; Cases.user_with_token "bob" "tok-b";
               Cases.user_without_token "carol"]
              Sample.empty_world _ 1%nat eq_refl) as [Hrun Hclean].
  eexists. split; [exact Hrun |].
  split; [reflexivity |]. split; reflexivity.
Defined.

Lemma users_without_token_are_passed_over_witness :
  _cache_user_metadata_batch Cases.get_user Cases.update_metadata Cases.locked
    [Cases.user_without_token "carol"; Cases.user_with_token "dave" ""]
    Sample.empty_world = (Ok tt, Sample.empty_world).
Proof.
  apply users_without_token_are_passed_over.
  repeat constructor.
Defined.

End MetadataFacts.

Module ClientFacts.

Import ClientBase.

Section Construction.

Variable cls : ClientClass.
Variable media_server : option MediaServer.t.
Variables url_key token_key : string.
Variable s : Session.

(** X22.  What the constructor leaves on a new client.  [url] and [token]
    are always bound.  [server_row] and [server_id] are bound together or
    not at all: either both are unbound, no row was given and [url] and
    [token] come from the settings; or both are bound, to a row and to its
    id, and [url] and [token] are that row's.  The row is the one given,
    or else a row of the server table whose type is the tag of the
    class. *)
Theorem constructor_binds_row_and_id_together :
  let self := __init__ (new cls) media_server url_key token_key s in
  class self = cls
  /\ hasattr (url self) = true
  /\ hasattr (token self) = true
  /\ ((server_row self = Unset
       /\ server_id self = Unset
       /\ media_server = None
       /\ url self = Bound (settings (live s) !! url_key)
       /\ token self = Bound (settings (live s) !! token_key))
      \/ exists row,
          server_row self = Bound row
          /\ server_id self = Bound (MediaServer.id row)
          /\ url self = Bound (Some (MediaServer.url row))
          /\ token self = Bound (MediaServer.api_key row)
          /\ (media_server = Some row
              \/ (media_server = None
                  /\ In row (servers (live s))
                  /\ _server_type cls = Bound (MediaServer.server_type row)))).
Proof.
  unfold __init__, class_server_type, first_server_of_type, new, setting. cbn [class].
  destruct media_server as [row |].
  - repeat split. right. exists row. repeat split. left. reflexivity.
  - destruct (_server_type cls) as [| tag] eqn:Htag; cbn [nonempty].
    + repeat split. left. repeat split.
    + destruct (String.eqb tag "").
      * repeat split. left. repeat split.
      * destruct (List.find _ (servers (live s))) as [row |] eqn:Hfind.
        -- apply List.find_some in Hfind. destruct Hfind as [Hin Htype].
           apply String.eqb_eq in Htype.
           repeat split. right. exists row. repeat split.
           right. repeat split; [exact Hin | rewrite Htype; reflexivity].
        -- repeat split. left. repeat split.
Qed.

Section ImageProxy.

Variable generate_token : string -> Z -> string.
Variable quote_plus : string -> string.

(** X23.  A constructed client produces an image-proxy URL exactly when it
    has a server row: the URL is the fixed path followed by the quoted
    token, and the token is generated for the id of that row.  Without a
    row the call raises [AttributeError]. *)
Theorem proxy_url_exactly_with_a_server_row (image_url : string) :
  let self := __init__ (new cls) media_server url_key token_key s in
  (forall row,
      server_row self = Bound row ->
      generate_image_proxy_url generate_token quote_plus self image_url
      = Ok ("/image-proxy?token="
            +:+ quote_plus (generate_token image_url (MediaServer.id row))))
  /\ (server_row self = Unset ->
      generate_image_proxy_url generate_token quote_plus self image_url
      = Raise (AttributeError "object has no attribute 'server_id'")).
Proof.
  intros self.
  assert (Hshape : (server_row self = Unset /\ server_id self = Unset)
                   \/ exists row, server_row self = Bound row
                                  /\ server_id self = Bound (MediaServer.id row)).
  { unfold self, __init__, new. cbn [class].
    destruct media_server as [row |]; [right; exists row; split; reflexivity |].
    destruct (class_server_type cls) as [tag |]; [| left; split; reflexivity].
    destruct (first_server_of_type tag s) as [row |];
      [right; exists row; split; reflexivity | left; split; reflexivity]. }
  destruct Hshape as [(Hrow & Hid) | (row & Hrow & Hid)].
  - split.
    + intros row' H. rewrite Hrow in H. discriminate.
    + intros _. unfold generate_image_proxy_url. rewrite Hid. reflexivity.
  - split.
    + intros row' H. rewrite Hrow in H. inversion H; subst.
      unfold generate_image_proxy_url. rewrite Hid. reflexivity.
    + intros H. rewrite Hrow in H. discriminate.
Qed.

End ImageProxy.

End Construction.


Section Statistics.

Variable self : MediaClient.

(** The default [get_user_count], by what [statistics] does. *)
Lemma default_get_user_count_run (w : World) :
  default_get_user_count self w =
  match statistics self w with
  | (Ok (JDict items), w1) =>
      (Ok (match items_get items "user_stats" with
           | None => JInt 0
           | Some (JDict user_stats) =>
               match items_get user_stats "total_users" with
               | Some v => v
               | None => JInt 0
               end
           | Some _ => JInt 0
           end), w1)
  | (_, w1) => (Ok (JInt 0), w1)
  end.
Proof.
  unfold default_get_user_count, try_except, mbind, M_bind, lift, dict_get.
  destruct (statistics self w) as [[stats | e] w1]; [| reflexivity].
  destruct stats; try reflexivity.
  destruct (items_get items "user_stats") as [user_stats |]; [| reflexivity].
  destruct user_stats; reflexivity.
Qed.

(** The default [get_server_info], by what [statistics] does. *)
Lemma default_get_server_info_run (w : World) :
  default_get_server_info self w =
  match statistics self w with
  | (Ok (JDict items), w1) =>
      match entry_fields items "server_stats", entry_fields items "user_stats" with
      | Some server_stats, Some user_stats =>
          (Ok (JDict [("version",
                       match items_get server_stats "version" with
                       | Some v => v
                       | None => JStr "Unknown"
                       end);
                      ("transcoding_sessions",
                       match items_get server_stats "transcoding_sessions" with
                       | Some v => v
                       | None => JInt 0
                       end);
                      ("active_sessions",
                       match items_get user_stats "active_sessions" with
                       | Some v => v
                       | None => JInt 0
                       end)]), w1)
      | _, _ => (Ok unknown_server_info, w1)
      end
  | (_, w1) => (Ok unknown_server_info, w1)
  end.
Proof.
  unfold default_get_server_info, try_except, mbind, M_bind, lift, dict_get, entry_fields.
  destruct (statistics self w) as [[stats | e] w1]; [| reflexivity].
  destruct stats; try reflexivity.
  destruct (items_get items "server_stats") as [server_stats |].
  - destruct server_stats; try reflexivity.
    destruct (items_get items "user_stats") as [user_stats |].
    + destruct user_stats; reflexivity.
    + reflexivity.
  - simpl. destruct (items_get items "user_stats") as [user_stats |].
    + destruct user_stats; reflexivity.
    + reflexivity.
Qed.

(** Both defaults return, in the world [statistics] left. *)
Lemma default_get_user_count_returns (w : World) :
  exists total_users,
    default_get_user_count self w = (Ok total_users, snd (statistics self w)).
Proof.
  rewrite default_get_user_count_run.
  destruct (statistics self w) as [[stats | e] w1]; [destruct stats |]; eauto.
Qed.

Lemma default_get_server_info_returns (w : World) :
  exists server_stats,
    default_get_server_info self w = (Ok server_stats, snd (statistics self w)).
Proof.
  rewrite default_get_server_info_run.
  destruct (statistics self w) as [[stats | e] w1]; [destruct stats |]; eauto.
  destruct (entry_fields items "server_stats"); [| eauto].
  destruct (entry_fields items "user_stats"); eauto.
Qed.

(** X25.  The default [get_user_count] never raises.  It returns the
    [total_users] entry of the [user_stats] dictionary of what [statistics]
    returns, whatever that entry is, and 0 in every other case: when
    [statistics] raises, when it returns something that is not a
    dictionary, when [user_stats] is missing or is not a dictionary, when
    [total_users] is missing. *)
Theorem default_user_count_reads_total_users_or_zero (w : World) :
  get_user_count_override (class self) = None ->
  get_user_count self w =
  match statistics self (called "get_user_count" w) with
  | (Ok (JDict items), w1) =>
      (Ok (match items_get items "user_stats" with
           | None => JInt 0
           | Some (JDict user_stats) =>
               match items_get user_stats "total_users" with
               | Some v => v
               | None => JInt 0
               end
           | Some _ => JInt 0
           end), w1)
  | (_, w1) => (Ok (JInt 0), w1)
  end.
Proof.
  intros Hnone. unfold get_user_count, invoke. rewrite Hnone.
  apply default_get_user_count_run.
Qed.

(** X26.  The default [get_server_info] never raises, and is all or
    nothing.  When [statistics] returns a dictionary whose [server_stats]
    and [user_stats] entries are dictionaries or missing, each of the three
    fields is read, with its own default.  When one of the two entries is
    there but is not a dictionary, or [statistics] raises or returns
    something else, all three fields are the placeholders, whatever the
    other entry holds. *)
Theorem default_server_info_is_all_or_nothing (w : World) :
  get_server_info_override (class self) = None ->
  get_server_info self w =
  match statistics self (called "get_server_info" w) with
  | (Ok (JDict items), w1) =>
      match entry_fields items "server_stats", entry_fields items "user_stats" with
      | Some server_stats, Some user_stats =>
          (Ok (JDict [("version",
                       match items_get server_stats "version" with
                       | Some v => v
                       | None => JStr "Unknown"
                       end);
                      ("transcoding_sessions",
                       match items_get server_stats "transcoding_sessions" with
                       | Some v => v
                       | None => JInt 0
                       end);
                      ("active_sessions",
                       match items_get user_stats "active_sessions" with
                       | Some v => v
                       | None => JInt 0
                       end)]), w1)
      | _, _ => (Ok unknown_server_info, w1)
      end
  | (_, w1) => (Ok unknown_server_info, w1)
  end.
Proof.
  intros Hnone. unfold get_server_info, invoke. rewrite Hnone.
  apply default_get_server_info_run.
Qed.

(** X27.  With the inherited [get_user_count] and [get_server_info],
    [get_readonly_statistics] never raises, whatever [statistics] does: it
    returns its dictionary of four entries.  When [statistics] raises, the
    user count is 0 and the server info is the placeholder. *)
Theorem readonly_statistics_with_defaults_never_raises (w : World) :
  get_user_count_override (class self) = None ->
  get_server_info_override (class self) = None ->
  (exists total_users server_stats,
      fst (get_readonly_statistics self w)
      = Ok (JDict [("user_stats",
                    JDict [("total_users", total_users); ("active_sessions", JInt 0)]);
                   ("server_stats", server_stats);
                   ("library_stats", JDict []);
                   ("content_stats", JDict [])]))
  /\ ((forall w0, exists e, fst (statistics_impl (class self) w0) = Raise e) ->
      fst (get_readonly_statistics self w)
      = Ok (JDict [("user_stats",
                    JDict [("total_users", JInt 0); ("active_sessions", JInt 0)]);
                   ("server_stats", unknown_server_info);
                   ("library_stats", JDict []);
                   ("content_stats", JDict [])])).
Proof.
  intros Hcount Hinfo.
  unfold get_readonly_statistics, get_user_count, get_server_info, invoke, mbind, M_bind.
  rewrite Hcount, Hinfo.
  split.
  - destruct (default_get_user_count_returns (called "get_user_count" w))
      as (total_users & ->).
    destruct (default_get_server_info_returns
                (called "get_server_info"
                   (snd (statistics self (called "get_user_count" w)))))
      as (server_stats & ->).
    exists total_users, server_stats. reflexivity.
  - intros Hraises.
    assert (Hstat : forall w0, exists e w', statistics self w0 = (Raise e, w')).
    { intros w0. unfold statistics, invoke.
      destruct (Hraises (called "statistics" w0)) as [e He].
      destruct (statistics_impl (class self) (called "statistics" w0)) as [r w'].
      simpl in He. subst r. eauto. }
    rewrite default_get_user_count_run.
    destruct (Hstat (called "get_user_count" w)) as (e1 & w1 & ->).
    rewrite default_get_server_info_run.
    destruct (Hstat (called "get_server_info" w1)) as (e2 & w2 & ->).
    reflexivity.
Qed.

End Statistics.

(** A client that inherits both methods, with a [statistics] that returns
    one user. *)
Lemma default_user_count_reads_total_users_or_zero_witness :
  fst (get_user_count (new Sample.syncing_class) Sample.empty_world) = Ok (JInt 1).
Proof.
  rewrite (default_user_count_reads_total_users_or_zero
             (new Sample.syncing_class) Sample.empty_world eq_refl).
  reflexivity.
Defined.

Lemma default_server_info_is_all_or_nothing_witness :
  fst (get_server_info (new Sample.syncing_class) Sample.empty_world)
  = Ok (JDict [("version", JStr "10.9.0");
               ("transcoding_sessions", JInt 0);
               ("active_sessions", JInt 0)]).
Proof.
  rewrite (default_server_info_is_all_or_nothing
             (new Sample.syncing_class) Sample.empty_world eq_refl).
  reflexivity.
Defined.

Lemma readonly_statistics_with_defaults_never_raises_witness :
  exists total_users server_stats,
    fst (get_readonly_statistics (new Sample.syncing_class) Sample.empty_world)
    = Ok (JDict [("user_stats",
                  JDict [("total_users", total_users); ("active_sessions", JInt 0)]);
                 ("server_stats", server_stats);
                 ("library_stats", JDict []);
                 ("content_stats", JDict [])]).
Proof.
  exact (proj1 (readonly_statistics_with_defaults_never_raises
                  (new Sample.syncing_class) Sample.empty_world eq_refl eq_refl)).
Defined.

Section Linking.

Variable EMAIL_RE_fullmatch : string -> bool.

#[local] Abbreviation link := (link_identity EMAIL_RE_fullmatch).

Lemma adopt_identity_origin (existing : option User.t) (user_kwargs : User.t) :
  User.identity_id (adopt_identity existing user_kwargs) = User.identity_id user_kwargs
  \/ exists u, existing = Some u
               /\ truthy_int (User.identity_id u) = true
               /\ User.identity_id (adopt_identity existing user_kwargs)
                  = User.identity_id u.
Proof.
  unfold adopt_identity. destruct existing as [u |]; [| left; reflexivity].
  destruct (truthy_int (User.identity_id u)) eqn:Ht; [| left; reflexivity].
  right. exists u. repeat split. exact Ht.
Qed.

(** X28.  Identity linking never invents a group.  The identity group of
    the new user is the one the keyword arguments came with, or that of a
    row of the user table whose code is the code of the keyword arguments,
    and then this code is not empty and is the code of a row of the
    invitation table. *)
Theorem linking_never_invents_a_group
  (cleanup_expired_user_by_email : string -> World -> World)
  (user_kwargs : User.t) (w : World) :
  exists new_user,
    fst (_create_user_with_identity_linking EMAIL_RE_fullmatch
           cleanup_expired_user_by_email user_kwargs w) = Ok new_user
    /\ (User.identity_id new_user = User.identity_id user_kwargs
        \/ exists code invitation existing,
             nonempty (User.code user_kwargs) = Some code
             /\ In invitation (invitations (live (db w)))
             /\ Invitation.code invitation = code
             /\ In existing (users (live (db w)))
             /\ User.code existing = Some code
             /\ truthy_int (User.identity_id existing) = true
             /\ User.identity_id new_user = User.identity_id existing).
Proof.
  exists (link user_kwargs (db w)).
  rewrite ClientBaseFacts.create_run. split; [reflexivity |].
  unfold link_identity.
  destruct (nonempty (User.code user_kwargs)) as [code |] eqn:Hcode; [| left; reflexivity].
  destruct (invitation_by_code code (db w)) as [invitation |] eqn:Hinv;
    [| left; reflexivity].
  apply ClientBaseFacts.invitation_by_code_in in Hinv. destruct Hinv as [Hiin Hicode].
  destruct (negb (truthy_bool (Invitation.unlimited invitation))).
  - destruct (adopt_identity_origin (user_by_code code (db w)) user_kwargs)
      as [Hsame | (u & Hfound & Htruthy & Hid)]; [left; exact Hsame |].
    right. exists code, invitation, u.
    apply ClientBaseFacts.user_by_code_in in Hfound. destruct Hfound as [Hin Hc].
    split; [reflexivity |].
    split; [exact Hiin |]. split; [exact Hicode |].
    split; [exact Hin |]. split; [exact Hc |]. split; [exact Htruthy | exact Hid].
  - destruct (nonempty (User.email user_kwargs)) as [email |]; [| left; reflexivity].
    destruct (EMAIL_RE_fullmatch email); [| left; reflexivity].
    destruct (adopt_identity_origin (user_by_code_email code email (db w)) user_kwargs)
      as [Hsame | (u & Hfound & Htruthy & Hid)]; [left; exact Hsame |].
    right. exists code, invitation, u.
    apply ClientBaseFacts.user_by_code_email_in in Hfound.
    destruct Hfound as [Hin [Hc _]].
    split; [reflexivity |].
    split; [exact Hiin |]. split; [exact Hicode |].
    split; [exact Hin |]. split; [exact Hc |]. split; [exact Htruthy | exact Hid].
Qed.

(** X29.  Keyword arguments with no code, with an empty code, or with a
    code that no invitation has (the comparison is exact) are not linked:
    the new user is the keyword arguments as they came.  And the expiry
    service cannot change the outcome of linking, since it runs after the
    lookups: with any two of them the new user is the same. *)
Theorem no_invitation_no_linking
  (cleanup1 cleanup2 : string -> World -> World) (user_kwargs : User.t) (w : World) :
  ((nonempty (User.code user_kwargs) = None
    \/ exists code, nonempty (User.code user_kwargs) = Some code
                    /\ Forall (fun i => Invitation.code i <> code) (invitations (live (db w)))) ->
   fst (_create_user_with_identity_linking EMAIL_RE_fullmatch cleanup1 user_kwargs w)
   = Ok user_kwargs)
  /\ fst (_create_user_with_identity_linking EMAIL_RE_fullmatch cleanup1 user_kwargs w)
     = fst (_create_user_with_identity_linking EMAIL_RE_fullmatch cleanup2 user_kwargs w).
Proof.
  rewrite !ClientBaseFacts.create_run. split; [| reflexivity].
  simpl. unfold link_identity.
  intros [Hnone | (code & Hcode & Hall)].
  - rewrite Hnone. reflexivity.
  - rewrite Hcode.
    assert (Hinv : invitation_by_code code (db w) = None).
    { unfold invitation_by_code. apply find_none_forall. intros i Hin.
      rewrite Forall_forall in Hall. apply String.eqb_neq. apply Hall.
      apply list_elem_of_In. exact Hin. }
    rewrite Hinv. reflexivity.
Qed.

End Linking.

End ClientFacts.
